(** * renderType.ts: the PropTypes type-descriptor formatter

    A shallow embedding of
    [addons/docs/src/frameworks/react/propTypes/renderType.ts].

    The descriptor handed to [generateType] is docgen data typed [any] at
    every nesting level ([PropType.value?: any]), so it is modelled as an
    untyped JavaScript value and the property reads, coercions and faults of
    the language are written out.  Numbers, functions and symbols do not
    occur in docgen descriptors and are not part of the value universe.  A
    string is a sequence of code units, of which the model has the 256 of
    [ascii]; [String.length] is the [length] of the language. *)

From Stdlib Require Import String Ascii List Arith NArith Bool Lia.
From Stdlib Require Import DecimalString.
Import ListNotations.
Open Scope list_scope.
Open Scope string_scope.

Set Warnings "-register-all".

(** ** JavaScript values *)

(** An object is the list of its own enumerable properties, in the order
    in which they were created (for an object literal, the order in which
    they are written); its keys are pairwise distinct and its prototype is
    [Object.prototype]. *)
#[local] Unset Elimination Schemes.
Inductive JsValue : Type :=
| JsUndefined
| JsNull
| JsBool (b : bool)
| JsString (s : string)
| JsArray (elems : list JsValue)
| JsObject (props : list (string * JsValue)).
#[local] Set Elimination Schemes.

(** ** Completions: a call returns normally or throws *)

Inductive JsError : Type :=
| TypeError (msg : string)
| Thrown (what : string).

Inductive completion (A : Type) : Type :=
| Normal (a : A)
| Throw (e : JsError).

Arguments Normal {A} a.
Arguments Throw {A} e.

Definition bind {A B : Type} (c : completion A) (k : A -> completion B)
  : completion B :=
  match c with
  | Normal a => k a
  | Throw e => Throw e
  end.

Notation "x <- c ;; k" := (bind c (fun x => k))
  (at level 61, c at next level, right associativity).

(** [try { return c } catch (e) { console.error(e) } return d]: the log
    written by [console.error] is not part of the model. *)
Definition try_catch {A : Type} (c : completion A) (d : A) : A :=
  match c with
  | Normal a => a
  | Throw _ => d
  end.

Fixpoint mapM {A B : Type} (f : A -> completion B) (l : list A)
  : completion (list B) :=
  match l with
  | [] => Normal []
  | x :: rest =>
      y <- f x ;;
      ys <- mapM f rest ;;
      Normal (y :: ys)
  end.

(** ** The operations of the language the formatter relies on *)

(** [Array.prototype.push]: append at the end. *)
Definition push {A : Type} (l : list A) (x : A) : list A := (l ++ [x])%list.

(** lodash [isNil]. *)
Definition isNil (v : JsValue) : bool :=
  match v with
  | JsUndefined | JsNull => true
  | _ => false
  end.

Fixpoint lookup (key : string) (props : list (string * JsValue)) : JsValue :=
  match props with
  | [] => JsUndefined
  | (k, v) :: rest => if String.eqb k key then v else lookup key rest
  end.

Fixpoint has_own (key : string) (props : list (string * JsValue)) : bool :=
  match props with
  | [] => false
  | (k, _) :: rest => String.eqb k key || has_own key rest
  end.

(** The canonical decimal key of an array index. *)
Definition index_key (i : nat) : string :=
  NilEmpty.string_of_uint (Nat.to_uint i).

Definition indexed (elems : list JsValue) : list (string * JsValue) :=
  combine (map index_key (seq 0 (List.length elems))) elems.

Fixpoint chars (s : string) : list JsValue :=
  match s with
  | EmptyString => []
  | String c rest => JsString (String c EmptyString) :: chars rest
  end.

(** The own enumerable string-keyed properties of a value after [ToObject];
    [undefined] and [null] have none to offer and fault. *)
Definition own_properties (v : JsValue)
  : completion (list (string * JsValue)) :=
  match v with
  | JsUndefined | JsNull =>
      Throw (TypeError "Cannot convert undefined or null to object")
  | JsBool _ => Normal []
  | JsString s => Normal (indexed (chars s))
  | JsArray elems => Normal (indexed elems)
  | JsObject props => Normal props
  end.

(** An array index is the canonical decimal numeral, without sign or
    leading zero, of an integer from [0] to [2^32 - 2]. *)
Definition digit (c : ascii) : option N :=
  let n := N_of_ascii c in
  if N.leb 48 n && N.leb n 57 then Some (n - 48)%N else None.

Fixpoint numeral (s : string) (acc : N) : option N :=
  match s with
  | EmptyString => Some acc
  | String c rest =>
      match digit c with
      | Some d => numeral rest (10 * acc + d)%N
      | None => None
      end
  end.

Definition array_index (key : string) : option N :=
  match key with
  | EmptyString => None
  | String c rest =>
      if Ascii.eqb c "0" && negb (String.eqb rest "") then None
      else match numeral key 0 with
           | Some n => if N.leb n 4294967294 then Some n else None
           | None => None
           end
  end.

Fixpoint insert_ascending {A : Type} (i : N) (x : A) (l : list (N * A))
  : list (N * A) :=
  match l with
  | [] => [(i, x)]
  | (j, y) :: rest =>
      if N.leb i j then (i, x) :: l else (j, y) :: insert_ascending i x rest
  end.

(** The order in which the own property keys of an object are
    enumerated: the keys that are array indices first, in ascending numeric
    order, then the other keys in the order of their creation. *)
Definition enumeration_order {A : Type} (props : list (string * A))
  : list (string * A) :=
  (map snd
       (fold_right (fun p sorted =>
                      match array_index (fst p) with
                      | Some i => insert_ascending i p sorted
                      | None => sorted
                      end) [] props)
   ++ filter (fun p => match array_index (fst p) with
                       | Some _ => false
                       | None => true
                       end) props)%list.

(** [Object.keys(v)]. *)
Definition Object_keys (v : JsValue) : completion (list string) :=
  ps <- own_properties v ;;
  Normal (map fst (enumeration_order ps)).

(** The property read [v.key] / [v[key]].  None of the prototypes carries
    one of the keys the formatter reads ([name], [value], [raw],
    [computed], and the keys [Object.keys] returned); [length], whose value
    is a number, is read through [length_le] instead. *)
Definition get_prop (v : JsValue) (key : string) : completion JsValue :=
  match v with
  | JsUndefined | JsNull =>
      Throw (TypeError "Cannot read properties of undefined or null")
  | _ =>
      ps <- own_properties v ;;
      Normal (lookup key ps)
  end.

(** [ToString]: the coercion of template literals and of [join].  An
    object whose own [toString] property shadows the inherited method with
    a non-callable value cannot be converted. *)
Fixpoint ToString (v : JsValue) : completion string :=
  match v with
  | JsUndefined => Normal "undefined"
  | JsNull => Normal "null"
  | JsBool true => Normal "true"
  | JsBool false => Normal "false"
  | JsString s => Normal s
  | JsArray elems =>
      parts <- (fix each (l : list JsValue) : completion (list string) :=
                  match l with
                  | [] => Normal []
                  | x :: rest =>
                      s <- (if isNil x then Normal "" else ToString x) ;;
                      ss <- each rest ;;
                      Normal (s :: ss)
                  end) elems ;;
      Normal (String.concat "," parts)
  | JsObject props =>
      if has_own "toString" props
      then Throw (TypeError "Cannot convert object to primitive value")
      else Normal "[object Object]"
  end.

(** [Array.prototype.join(sep)]: nil elements render as the empty string. *)
Definition Array_join (sep : string) (l : list JsValue) : completion string :=
  parts <- mapM (fun x => if isNil x then Normal "" else ToString x) l ;;
  Normal (String.concat sep parts).

(** [ToBoolean], the test of [c ? a : b]. *)
Definition ToBoolean (v : JsValue) : bool :=
  match v with
  | JsUndefined | JsNull => false
  | JsBool b => b
  | JsString s => negb (String.eqb s "")
  | JsArray _ | JsObject _ => true
  end.

(** Strict equality.  Two arrays or objects are [===] when they are the
    same reference; every pair the formatter compares is either a pair of
    primitives or twice the same reference, so comparing structure agrees
    with it. *)
Fixpoint strict_eq (a b : JsValue) {struct a} : bool :=
  match a, b with
  | JsUndefined, JsUndefined => true
  | JsNull, JsNull => true
  | JsBool x, JsBool y => Bool.eqb x y
  | JsString x, JsString y => String.eqb x y
  | JsArray xs, JsArray ys =>
      (fix all2 (l : list JsValue) (r : list JsValue) : bool :=
         match l, r with
         | [], [] => true
         | x :: l', y :: r' => strict_eq x y && all2 l' r'
         | _, _ => false
         end) xs ys
  | JsObject ps, JsObject qs =>
      (fix all2 (l : list (string * JsValue)) (r : list (string * JsValue))
         : bool :=
         match l, r with
         | [], [] => true
         | (k, x) :: l', (k', y) :: r' =>
             String.eqb k k' && strict_eq x y && all2 l' r'
         | _, _ => false
         end) ps qs
  | _, _ => false
  end.

(** ** The collaborators of the formatter *)

(** [v.length <= max] on a value that need not be a string.  When the
    operand of [<=] is not a number the language converts it; converting a
    string parses a floating-point literal, which is left to the runtime. *)
Class Runtime : Type := {
  (** [ToNumber(s) <= n] for a string [s]. *)
  StringToNumber_le : string -> nat -> bool
}.

(** The enumeration [PropTypesType] of [./types]: the kind tags docgen
    writes into [PropType.name]. *)
Class PropTypesType : Type := {
  CUSTOM : string;
  FUNC : string;
  SHAPE : string;
  INSTANCEOF : string;
  OBJECTOF : string;
  UNION : string;
  ENUM : string;
  ARRAYOF : string;
  PropTypesType_distinct :
    NoDup [CUSTOM; FUNC; SHAPE; INSTANCEOF; OBJECTOF; UNION; ENUM; ARRAYOF]
}.

(** The enumeration [InspectionType] and the classifier [inspectValue] of
    [./inspectValue]; the classifier may throw. *)
Class Inspector : Type := {
  InspectionType : Type;
  STRING : InspectionType;
  OBJECT : InspectionType;
  InspectionType_eqb : InspectionType -> InspectionType -> bool;
  InspectionType_eqb_spec :
    forall a b, InspectionType_eqb a b = true <-> a = b;
  STRING_not_OBJECT : STRING <> OBJECT;
  (** [inferedType.toString()] *)
  toString : InspectionType -> string;
  (** [inspectValue(code).inferedType] *)
  inspectValue : JsValue -> completion InspectionType
}.

(** Modelled from the spec: the declarations of [ExtractedJsDocParam],
    [ExtractedJsDoc] ([lib2/jsdocParser]) and [ExtractedProp]
    ([lib2/extractDocgenProps]) are not part of the sources at hand.  The
    documentation tags are an optional ordered sequence of parameters, each
    with a display name and an optional type name, and an optional return
    type with a type name; the methods [getPrettyName()] and [getTypeName()]
    are the fields they return. *)
Record ExtractedJsDocParam : Type := {
  getPrettyName : string;
  (** nil when the parameter has no declared type *)
  getTypeName : option string
}.

Record ExtractedJsDocReturns : Type := {
  returns_getTypeName : string
}.

Record ExtractedJsDoc : Type := {
  params : option (list ExtractedJsDocParam);
  returns : option ExtractedJsDocReturns
}.

Record ExtractedProp : Type := {
  docgenInfo_type : JsValue;
  jsDocTags : option ExtractedJsDoc
}.

(** ** Regular-expression replacement *)

(** [.] matches every code unit but a line terminator (of which U+2028
    and U+2029 lie outside [ascii]). *)
Definition line_terminator (c : ascii) : bool :=
  Ascii.eqb c "010"%char || Ascii.eqb c "013"%char.

(** [/PropTypes./] anchored at the start of [s]: the length of the match. *)
Definition match_PropTypes (s : string) : option nat :=
  if String.prefix "PropTypes" s then
    match String.get 9 s with
    | Some c => if line_terminator c then None else Some 10
    | None => None
    end
  else None.

(** [/.isRequired/] anchored at the start of [s]. *)
Definition match_isRequired (s : string) : option nat :=
  match s with
  | EmptyString => None
  | String c rest =>
      if line_terminator c then None
      else if String.prefix "isRequired" rest then Some 11 else None
  end.

(** [s.replace(/re/g, '')]: scan from the left, drop every match and
    resume after it.  [skip] counts the characters of the current match
    still to drop. *)
Fixpoint replace_all (re : string -> option nat) (skip : nat) (s : string)
  : string :=
  match s with
  | EmptyString => EmptyString
  | String c rest =>
      match skip with
      | S k => replace_all re k rest
      | 0 =>
          match re s with
          | Some (S k) => replace_all re k rest
          | _ => String c (replace_all re 0 rest)
          end
      end
  end.

Definition MAX_CAPTION_LENGTH : nat := 35.

Definition shortifyPropTypes_string (value : string) : string :=
  replace_all match_isRequired 0 (replace_all match_PropTypes 0 value).

(** [shortifyPropTypes(value)]: only a string has a [replace] method. *)
Definition shortifyPropTypes (value : JsValue) : completion JsValue :=
  match value with
  | JsString s => Normal (JsString (shortifyPropTypes_string s))
  | _ => Throw (TypeError "value.replace is not a function")
  end.

(** ** The formatter *)

Section Formatter.

Context {RT : Runtime} {PT : PropTypesType} {IV : Inspector}.

(** [w <= n] for a number [n] and an operand [w] that is not a number:
    [undefined] converts to [NaN], which compares false, [null] to [0], a
    boolean to [0] or [1], an array or object first to a string. *)
Definition number_le (w : JsValue) (n : nat) : completion bool :=
  match w with
  | JsUndefined => Normal false
  | JsNull => Normal true
  | JsBool b => Normal (Nat.leb (if b then 1 else 0) n)
  | JsString s => Normal (StringToNumber_le s n)
  | JsArray _ | JsObject _ =>
      s <- ToString w ;;
      Normal (StringToNumber_le s n)
  end.

(** [v.length <= n]. *)
Definition length_le (v : JsValue) (n : nat) : completion bool :=
  match v with
  | JsUndefined | JsNull =>
      Throw (TypeError "Cannot read properties of undefined or null")
  | JsBool _ => Normal false
  | JsString s => Normal (Nat.leb (String.length s) n)
  | JsArray elems => Normal (Nat.leb (List.length elems) n)
  | JsObject props => number_le (lookup "length" props) n
  end.

(** [name === PropTypesType.K] *)
Definition is_kind (name : JsValue) (K : string) : bool :=
  match name with
  | JsString s => String.eqb s K
  | _ => false
  end.

Record TypeDef : Type := mkTypeDef {
  name : JsValue;
  caption : JsValue;
  value : JsValue;
  inferedType : option InspectionType
}.

(** An omitted [value] or [inferedType] is passed as [JsUndefined] or
    [None]. *)
Definition createTypeDef (name caption value : JsValue)
    (inferedType : option InspectionType) : TypeDef :=
  mkTypeDef name caption
            (if negb (isNil value) then value else caption)
            inferedType.

Definition generateComputedValue (typeName : string) (value : JsValue)
  : completion TypeDef :=
  inferedType <- inspectValue value ;;
  shown <- (if InspectionType_eqb inferedType OBJECT
            then shortifyPropTypes value
            else Normal value) ;;
  Normal (createTypeDef (JsString typeName)
                        (JsString (toString inferedType))
                        shown
                        (Some inferedType)).

Definition generateCustom (type : JsValue) : completion TypeDef :=
  raw <- get_prop type "raw" ;;
  if negb (isNil raw) then
    inferedType <- inspectValue raw ;;
    value <- (if InspectionType_eqb inferedType OBJECT
              then shortifyPropTypes raw
              else Normal raw) ;;
    short <- length_le value MAX_CAPTION_LENGTH ;;
    Normal (createTypeDef (JsString CUSTOM)
                          (if short then value else JsString "custom")
                          value
                          (Some inferedType))
  else
    Normal (createTypeDef (JsString CUSTOM) (JsString "custom")
                          JsUndefined None).

(** Dereferencing a nil reference faults. *)
Definition deref {A : Type} (o : option A) : completion A :=
  match o with
  | Some a => Normal a
  | None => Throw (TypeError "Cannot read properties of undefined")
  end.

Definition generateFuncParam (x : ExtractedJsDocParam) : string :=
  let prettyName := getPrettyName x in
  match getTypeName x with
  | Some typeName => prettyName ++ ": " ++ typeName
  | None => prettyName
  end.

Definition generateFuncSignature (extractedProp : ExtractedProp)
    (hasParams hasReturns : bool) : completion string :=
  let funcParts : list string := [] in
  funcParts <-
    (if hasParams then
       tags <- deref (jsDocTags extractedProp) ;;
       ps <- deref (params tags) ;;
       let funcParams := map generateFuncParam ps in
       Normal (push funcParts ("(" ++ String.concat ", " funcParams ++ ")"))
     else Normal (push funcParts "()")) ;;
  funcParts <-
    (if hasReturns then
       tags <- deref (jsDocTags extractedProp) ;;
       r <- deref (returns tags) ;;
       Normal (push funcParts ("=> " ++ returns_getTypeName r))
     else Normal funcParts) ;;
  Normal (String.concat " " funcParts).

Definition is_some {A : Type} (o : option A) : bool :=
  match o with Some _ => true | None => false end.

Definition generateFunc (extractedProp : ExtractedProp)
  : completion TypeDef :=
  let plain :=
    Normal (createTypeDef (JsString FUNC) (JsString "func") JsUndefined None)
  in
  match jsDocTags extractedProp with
  | Some tags =>
      let hasParams := is_some (params tags) in
      let hasReturns := is_some (returns tags) in
      if hasParams || hasReturns then
        signature <- generateFuncSignature extractedProp hasParams hasReturns ;;
        Normal (createTypeDef (JsString FUNC) (JsString "func")
                              (JsString signature) None)
      else plain
  | None => plain
  end.

(** The recursive calls of [generateType] go through [self]. *)
Section Recursive.

Variable self : JsValue -> TypeDef.

Definition generateShape (type : JsValue) : completion TypeDef :=
  mapping <- get_prop type "value" ;;
  keys <- Object_keys mapping ;;
  rendered <- mapM (fun key =>
                      nested <- get_prop mapping key ;;
                      v <- ToString (value (self nested)) ;;
                      Normal (key ++ ": " ++ v)) keys ;;
  let fields := String.concat ", " rendered in
  let shape := "{ " ++ fields ++ " }" in
  Normal (createTypeDef
            (JsString SHAPE)
            (JsString (if Nat.leb (String.length shape) MAX_CAPTION_LENGTH
                       then shape else "object"))
            (JsString shape)
            None).

Definition generateObjectOf (type : JsValue) : completion TypeDef :=
  let format (of_ : JsValue) : completion JsValue :=
    s <- ToString of_ ;; Normal (JsString ("objectOf(" ++ s ++ ")")) in
  nested <- get_prop type "value" ;;
  let r := self nested in
  let value := value r in
  caption <-
    (if is_kind (name r) CUSTOM then
       match inferedType r with
       | Some inferedType =>
           if negb (InspectionType_eqb inferedType STRING)
              && negb (InspectionType_eqb inferedType OBJECT)
           then Normal (JsString (toString inferedType))
           else Normal (caption r)
       | None => Normal (caption r)
       end
     else if is_kind (name r) SHAPE then
       short <- length_le value MAX_CAPTION_LENGTH ;;
       Normal (if short then value else caption r)
     else Normal (caption r)) ;;
  c <- format caption ;;
  v <- format value ;;
  Normal (createTypeDef (JsString OBJECTOF) c v None).

(** The step of the [reduce] of [generateUnion] and [generateEnum] on
    the accumulator [{ caption: [], value: [] }]. *)
Definition push_both (acc : list JsValue * list JsValue) (r : TypeDef)
  : list JsValue * list JsValue :=
  (push (fst acc) (caption r), push (snd acc) (value r)).

Definition generateUnion (type : JsValue) : completion TypeDef :=
  v <- get_prop type "value" ;;
  match v with
  | JsArray members =>
      let values :=
        fold_left (fun acc m => push_both acc (self m)) members ([], []) in
      c <- Array_join " | " (fst values) ;;
      v <- Array_join " | " (snd values) ;;
      Normal (createTypeDef (JsString UNION) (JsString c) (JsString v) None)
  | _ => Normal (createTypeDef (JsString UNION) v JsUndefined None)
  end.

Definition generateEnumValue (member : JsValue) : completion TypeDef :=
  value <- get_prop member "value" ;;
  computed <- get_prop member "computed" ;;
  if ToBoolean computed
  then generateComputedValue "enumvalue" value
  else Normal (createTypeDef (JsString "enumvalue") value JsUndefined None).

(** [reduce] with a callback that may throw. *)
Fixpoint reduce {A B : Type} (f : B -> A -> completion B) (l : list A)
    (acc : B) : completion B :=
  match l with
  | [] => Normal acc
  | x :: rest => acc' <- f acc x ;; reduce f rest acc'
  end.

Definition generateEnum (type : JsValue) : completion TypeDef :=
  v <- get_prop type "value" ;;
  match v with
  | JsArray members =>
      values <- reduce (fun acc m =>
                          r <- generateEnumValue m ;;
                          Normal (push_both acc r)) members ([], []) ;;
      c <- Array_join " | " (fst values) ;;
      v <- Array_join " | " (snd values) ;;
      Normal (createTypeDef (JsString ENUM) (JsString c) (JsString v) None)
  | _ => Normal (createTypeDef (JsString ENUM) v JsUndefined None)
  end.

Definition braceAfter (of_ : JsValue) : completion JsValue :=
  s <- ToString of_ ;; Normal (JsString (s ++ "[]")).

Definition braceAround (of_ : JsValue) : completion JsValue :=
  s <- ToString of_ ;; Normal (JsString ("[" ++ s ++ "]")).

Definition generateArray (type : JsValue) : completion TypeDef :=
  nested <- get_prop type "value" ;;
  let r := self nested in
  let caption := caption r in
  let value := value r in
  (* the final [return] of the function: it reads [value], not [caption] *)
  let generic :=
    c <- braceAfter value ;;
    Normal (createTypeDef (JsString ARRAYOF) c JsUndefined None) in
  if is_kind (name r) CUSTOM then
    match inferedType r with
    | Some inferedType =>
        if negb (InspectionType_eqb inferedType STRING)
           && negb (InspectionType_eqb inferedType OBJECT)
        then
          (* caption = inferedType.toString(), then control leaves the
             conditionals and reaches the final [return] *)
          let caption := JsString (toString inferedType) in
          generic
        else if InspectionType_eqb inferedType OBJECT then
          short <- length_le value MAX_CAPTION_LENGTH ;;
          caption <- (if short then braceAround value
                      else braceAfter (JsString (toString inferedType))) ;;
          value <- braceAround value ;;
          Normal (createTypeDef (JsString ARRAYOF) caption value None)
        else generic
    | None => generic
    end
  else if is_kind (name r) SHAPE then
    short <- length_le value MAX_CAPTION_LENGTH ;;
    caption <- (if short then braceAround value else braceAfter caption) ;;
    value <- braceAround value ;;
    Normal (createTypeDef (JsString ARRAYOF) caption value None)
  else generic.

(** The [switch] of [generateType], inside its [try]. *)
Definition generateType_body (type : JsValue) (extractedProp : ExtractedProp)
  : completion TypeDef :=
  kind <- get_prop type "name" ;;
  if is_kind kind CUSTOM then generateCustom type
  else if is_kind kind FUNC then generateFunc extractedProp
  else if is_kind kind SHAPE then generateShape type
  else if is_kind kind INSTANCEOF then
    v <- get_prop type "value" ;;
    Normal (createTypeDef (JsString INSTANCEOF) v JsUndefined None)
  else if is_kind kind OBJECTOF then generateObjectOf type
  else if is_kind kind UNION then generateUnion type
  else if is_kind kind ENUM then generateEnum type
  else if is_kind kind ARRAYOF then generateArray type
  else Normal (createTypeDef kind kind JsUndefined None).

End Recursive.

Definition unknown : TypeDef :=
  createTypeDef (JsString "unknown") (JsString "unknown") JsUndefined None.

(** Nesting depth bounds the recursion: a call on a value of size [n]
    only recurses on values of smaller size. *)
Fixpoint size (v : JsValue) : nat :=
  match v with
  | JsUndefined | JsNull => 0
  | JsBool _ | JsString _ => 1
  | JsArray elems => S (list_sum (map size elems))
  | JsObject props => S (list_sum (map (fun p => size (snd p)) props))
  end.

Fixpoint generateType_rec (fuel : nat) (extractedProp : ExtractedProp)
    (type : JsValue) : TypeDef :=
  match fuel with
  | 0 => unknown
  | S fuel' =>
      try_catch
        (generateType_body (generateType_rec fuel' extractedProp)
                           type extractedProp)
        unknown
  end.

Definition generateType (type : JsValue) (extractedProp : ExtractedProp)
  : TypeDef :=
  generateType_rec (size type) extractedProp type.

(** Modelled from the spec: [createPropText] of [lib2/createComponents]
    is not part of the sources at hand.  The display widget takes a text
    and an optional title; the element [createPropText(text, props)] builds
    is represented by the arguments it was built from. *)
Record PropTextProps : Type := {
  title : JsValue
}.

Inductive ReactNode : Type :=
| RenderNull
| PropText (text : JsValue) (props : option PropTextProps).

Definition createPropText (text : JsValue) (props : option PropTextProps)
  : ReactNode :=
  PropText text props.

Definition renderType (extractedProp : ExtractedProp)
  : completion ReactNode :=
  let type := docgenInfo_type extractedProp in
  kind <- get_prop type "name" ;;
  if is_kind kind CUSTOM || is_kind kind SHAPE || is_kind kind INSTANCEOF
     || is_kind kind OBJECTOF || is_kind kind UNION || is_kind kind ENUM
     || is_kind kind ARRAYOF
  then
    let r := generateType type extractedProp in
    Normal (createPropText
              (caption r)
              (Some {| title := if negb (strict_eq (caption r) (value r))
                                then value r else JsUndefined |}))
  else if is_kind kind FUNC then
    let r := generateType type extractedProp in
    Normal (createPropText (value r) None)
  else Normal RenderNull.

End Formatter.

(** ** The vocabulary of the statements *)

(** An index key starts with a digit: the named properties the formatter
    reads are never among the indices of a string or an array. *)
Definition named_key (key : string) : Prop :=
  match key with
  | EmptyString => False
  | String c _ =>
      Nat.ltb (nat_of_ascii c) 48 || Nat.ltb 57 (nat_of_ascii c) = true
  end.

(** Some suffix of [s] starts with a match of [re]. *)
Fixpoint occurs (re : string -> option nat) (s : string) : bool :=
  match s with
  | EmptyString => false
  | String _ rest =>
      match re s with
      | Some (S _) => true
      | _ => false
      end || occurs re rest
  end.

(** [needle] is a substring of [s]. *)
Fixpoint contains (needle s : string) : bool :=
  String.prefix needle s
  || match s with
     | EmptyString => false
     | String _ rest => contains needle rest
     end.

(** The brace-wrapped rendering ["{ field1: v1, field2: v2 }"]. *)
Definition shape_text (rendered : list string) : string :=
  "{ " ++ String.concat ", " rendered ++ " }".

(** Strip one leading ["["] and one trailing ["]"]. *)
Fixpoint strip_trailing_bracket (s : string) : option string :=
  match s with
  | EmptyString => None
  | String c EmptyString => if Ascii.eqb c "]" then Some "" else None
  | String c rest => option_map (String c) (strip_trailing_bracket rest)
  end.

Definition strip_brackets (s : string) : option string :=
  match s with
  | String c rest =>
      if Ascii.eqb c "[" then strip_trailing_bracket rest else None
  | EmptyString => None
  end.

(** The signature in the words of the specification: each parameter as
    [name: typeName], the [: typeName] part left out when no type name is
    declared, joined by [", "] inside parentheses, ["()"] without
    parameters, and [" => "] with the return type name appended when a
    return type is documented. *)
Definition parameter_text (p : ExtractedJsDocParam) : string :=
  getPrettyName p
  ++ match getTypeName p with
     | Some typeName => ": " ++ typeName
     | None => ""
     end.

Definition signature_text (ps : option (list ExtractedJsDocParam))
    (ret : option ExtractedJsDocReturns) : string :=
  match ps with
  | Some l => "(" ++ String.concat ", " (map parameter_text l) ++ ")"
  | None => "()"
  end
  ++ match ret with
     | Some r => " => " ++ returns_getTypeName r
     | None => ""
     end.

(** The members of [l] at the positions [order], in that order. *)
Definition reorder {A : Type} (order : list nat) (l : list A) : list A :=
  flat_map (fun i => match nth_error l i with
                     | Some x => [x]
                     | None => []
                     end) order.

(** The title an element was built with, [undefined] when it has none. *)
Definition title_of (node : ReactNode) : JsValue :=
  match node with
  | PropText _ (Some props) => title props
  | _ => JsUndefined
  end.

Section Vocabulary.

Context {RT : Runtime} {PT : PropTypesType} {IV : Inspector}.

(** The tags in the order of the [case] labels of [generateType]. *)
Definition kinds : list string :=
  [CUSTOM; FUNC; SHAPE; INSTANCEOF; OBJECTOF; UNION; ENUM; ARRAYOF].

(** A tag that is no string, or a string of no [case] label, reaches
    [default]. *)
Definition recognized (kind : JsValue) : bool :=
  existsb (is_kind kind) kinds.

(** The text a Custom descriptor shows for its raw text. *)
Definition custom_text (inferedType : InspectionType) (raw : string) : string :=
  if InspectionType_eqb inferedType OBJECT
  then shortifyPropTypes_string raw else raw.

(** The text of one field, [`${key}: ${generateType(...).value}`]. *)
Definition field_text (ep : ExtractedProp) (field : string * JsValue)
  : completion string :=
  v <- ToString (value (generateType (snd field) ep)) ;;
  Normal (fst field ++ ": " ++ v).

(** The value of a Func: the signature when parameters or a return type
    are documented, the caption otherwise. *)
Definition func_value (ep : ExtractedProp) : string :=
  match jsDocTags ep with
  | Some tags =>
      if is_some (params tags) || is_some (returns tags)
      then signature_text (params tags) (returns tags)
      else "func"
  | None => "func"
  end.

(** The kinds of the first group of [case] labels of [renderType]. *)
Definition captioned_kinds : list string :=
  [CUSTOM; SHAPE; INSTANCEOF; OBJECTOF; UNION; ENUM; ARRAYOF].

(** An Enum member with text [t]: a literal member shows [t] as caption
    and value; a computed member that the classifier accepts shows the
    display name of its inferred kind as caption and [custom_text] of [t]
    as value. *)
Definition enum_member_formats (member : JsValue) (c v : string) : Prop :=
  exists t computed,
    get_prop member "value" = Normal (JsString t)
    /\ get_prop member "computed" = Normal computed
    /\ ((ToBoolean computed = false /\ c = t /\ v = t)
        \/ (ToBoolean computed = true
            /\ exists it, inspectValue (JsString t) = Normal it
                          /\ c = toString it /\ v = custom_text it t)).

(** Caption and value are strings. *)
Definition has_strings (r : TypeDef) : Prop :=
  exists c v, caption r = JsString c /\ value r = JsString v.

End Vocabulary.

(** ** A concrete configuration

    The kind tags of react-docgen and a small classifier, to run the
    formatter on examples. *)

Module Example.

#[export] Instance docgen_kinds : PropTypesType.
Proof.
  refine {| CUSTOM := "custom"; FUNC := "func"; SHAPE := "shape";
            INSTANCEOF := "instanceOf"; OBJECTOF := "objectOf";
            UNION := "union"; ENUM := "enum"; ARRAYOF := "arrayOf" |}.
  repeat constructor; simpl; intuition discriminate.
Defined.

(** No example compares a non-numeric [length]. *)
#[export] Instance runtime : Runtime :=
  {| StringToNumber_le := fun _ _ => false |}.

Inductive Kind : Type := KString | KObject | KFunction.

Definition Kind_eqb (a b : Kind) : bool :=
  match a, b with
  | KString, KString | KObject, KObject | KFunction, KFunction => true
  | _, _ => false
  end.

Definition Kind_toString (k : Kind) : string :=
  match k with
  | KString => "string"
  | KObject => "object"
  | KFunction => "function"
  end.

(** Text that opens with a brace is an object literal, text that opens
    with a parenthesis a function, text that opens with [@] is rejected by
    the parser, any other text is a string; only text can be classified. *)
Definition classify (code : JsValue) : completion Kind :=
  match code with
  | JsString s =>
      if String.prefix "{" s then Normal KObject
      else if String.prefix "(" s then Normal KFunction
      else if String.prefix "@" s then Throw (Thrown "SyntaxError")
      else Normal KString
  | _ => Throw (TypeError "code is not a string")
  end.

#[export] Instance classifier : Inspector.
Proof.
  refine {| InspectionType := Kind; STRING := KString; OBJECT := KObject;
            InspectionType_eqb := Kind_eqb; toString := Kind_toString;
            inspectValue := classify |}.
  - intros [ | | ] [ | | ]; simpl; split; congruence.
  - discriminate.
Defined.

(** [{ name, value, raw }] *)
Definition descriptor (name : string) (value raw : JsValue) : JsValue :=
  JsObject [("name", JsString name); ("value", value); ("raw", raw)].

(** [{ name }] *)
Definition scalar (name : string) : JsValue :=
  JsObject [("name", JsString name)].

(** A property without documentation tags. *)
Definition undocumented (type : JsValue) : ExtractedProp :=
  {| docgenInfo_type := type; jsDocTags := None |}.

(** [shape({ a: string, b: number })] *)
Definition shape_a_b : JsValue :=
  descriptor "shape"
             (JsObject [("a", scalar "string"); ("b", scalar "number")])
             JsUndefined.

(** [arrayOf(<custom>)] with the raw text of an arrow function. *)
Definition arrow : JsValue :=
  descriptor "custom" JsUndefined (JsString "() => {}").

Definition x_number_y_string : ExtractedProp :=
  {| docgenInfo_type := scalar "func";
     jsDocTags :=
       Some {| params :=
                 Some [ {| getPrettyName := "x"; getTypeName := Some "number" |};
                        {| getPrettyName := "y"; getTypeName := None |} ];
               returns := Some {| returns_getTypeName := "string" |} |} |}.

Definition enum_member (text : string) : JsValue :=
  JsObject [("value", JsString text); ("computed", JsBool false)].

(** [shape({ b: string, 1: number })] *)
Definition shape_b_1 : JsValue :=
  descriptor "shape"
             (JsObject [("b", scalar "string"); ("1", scalar "number")])
             JsUndefined.

(** [{ value: text, computed: true }] *)
Definition computed_member (text : string) : JsValue :=
  JsObject [("value", JsString text); ("computed", JsBool true)].

End Example.

(** ** Facts about the value model *)

Lemma JsValue_nested_ind (P : JsValue -> Prop) :
  P JsUndefined -> P JsNull ->
  (forall b, P (JsBool b)) ->
  (forall s, P (JsString s)) ->
  (forall elems, Forall P elems -> P (JsArray elems)) ->
  (forall props, Forall (fun p => P (snd p)) props -> P (JsObject props)) ->
  forall v, P v.
Proof.
  intros Hu Hn Hb Hs Ha Ho.
  fix IH 1.
  intros [ | | b | s | elems | props ].
  - exact Hu.
  - exact Hn.
  - apply Hb.
  - apply Hs.
  - apply Ha. induction elems as [ | x l IHl ]; constructor.
    + apply IH.
    + exact IHl.
  - apply Ho. induction props as [ | [k x] l IHl ]; constructor.
    + simpl. apply IH.
    + exact IHl.
Qed.

Lemma strict_eq_refl (v : JsValue) : strict_eq v v = true.
Proof.
  induction v as [ | | b | s | elems IH | props IH ] using JsValue_nested_ind;
    simpl; auto.
  - apply Bool.eqb_reflx.
  - apply String.eqb_refl.
  - induction IH as [ | x l Hx _ IHl ]; auto.
    rewrite Hx. exact IHl.
  - induction IH as [ | [k x] l Hx _ IHl ]; auto.
    simpl in Hx. rewrite String.eqb_refl, Hx. exact IHl.
Qed.

Lemma strict_eq_true (a b : JsValue) : strict_eq a b = true -> a = b.
Proof.
  revert b.
  induction a as [ | | x | x | elems IH | props IH ] using JsValue_nested_ind;
    intros [ | | y | y | ys | qs ]; simpl; try discriminate; auto.
  - intros H. apply Bool.eqb_prop in H. now subst.
  - intros H. apply String.eqb_eq in H. now subst.
  - intros H. f_equal. revert ys H.
    induction IH as [ | x l Hx _ IHl ]; intros [ | y r ] H;
      try discriminate; auto.
    apply andb_true_iff in H as [H1 H2].
    f_equal; auto.
  - intros H. f_equal. revert qs H.
    induction IH as [ | [k x] l Hx _ IHl ]; intros [ | [k' y] r ] H;
      try discriminate; auto.
    apply andb_true_iff in H as [H1 H2].
    apply andb_true_iff in H1 as [H0 H1].
    apply String.eqb_eq in H0. simpl in Hx. apply Hx in H1. subst.
    f_equal; auto.
Qed.

Lemma strict_eq_spec (a b : JsValue) : strict_eq a b = true <-> a = b.
Proof.
  split.
  - apply strict_eq_true.
  - intros ->. apply strict_eq_refl.
Qed.

Lemma mapM_ext_in {A B : Type} (f g : A -> completion B) (l : list A) :
  (forall x, In x l -> f x = g x) -> mapM f l = mapM g l.
Proof.
  induction l as [ | x l IH ]; intros H; simpl; auto.
  rewrite (H x) by (left; reflexivity).
  rewrite IH by (intros y Hy; apply H; right; exact Hy).
  reflexivity.
Qed.

Lemma fold_left_ext_in {A B : Type} (f g : B -> A -> B) (l : list A) :
  (forall acc x, In x l -> f acc x = g acc x) ->
  forall acc, fold_left f l acc = fold_left g l acc.
Proof.
  induction l as [ | x l IH ]; intros H acc; simpl; auto.
  rewrite (H acc x) by (left; reflexivity).
  apply IH. intros a y Hy. apply H. right. exact Hy.
Qed.

Lemma index_key_not_named (i : nat) (key : string) :
  named_key key -> index_key i <> key.
Proof.
  unfold index_key. intros Hk E. subst key.
  destruct (Nat.to_uint i); simpl in Hk; try discriminate; auto.
Qed.

Lemma lookup_indexed_named (key : string) (l : list JsValue) :
  named_key key -> lookup key (indexed l) = JsUndefined.
Proof.
  intros Hk. unfold indexed. generalize 0 as start.
  induction l as [ | x l IH ]; intros start; simpl; auto.
  destruct (String.eqb (index_key start) key) eqn:E.
  - apply String.eqb_eq in E. now apply index_key_not_named in E.
  - apply IH.
Qed.

Lemma lookup_In (key : string) (props : list (string * JsValue)) :
  lookup key props = JsUndefined \/ In (lookup key props) (map snd props).
Proof.
  induction props as [ | [k x] l IH ]; simpl; auto.
  destruct (String.eqb k key); auto.
  destruct IH; auto.
Qed.

Lemma indexed_values (l : list JsValue) : map snd (indexed l) = l.
Proof.
  unfold indexed. generalize 0 as start.
  induction l as [ | x l IH ]; intros start; simpl; auto.
  now rewrite IH.
Qed.

(** A read of a named property that yields a string was made on an
    object. *)
Lemma get_prop_named_string (v : JsValue) (key s : string) :
  named_key key -> get_prop v key = Normal (JsString s) ->
  exists props, v = JsObject props.
Proof.
  intros Hk.
  destruct v as [ | | b | t | elems | props ]; simpl; try discriminate.
  - now rewrite lookup_indexed_named.
  - now rewrite lookup_indexed_named.
  - eauto.
Qed.

(** ** The size of a value *)

Lemma size_In_le (x : JsValue) (l : list JsValue) :
  In x l -> size x <= list_sum (map size l).
Proof.
  induction l as [ | y l IH ]; simpl; intros H; [ contradiction | ].
  destruct H as [ -> | H ]; [ lia | ].
  apply IH in H. lia.
Qed.

Lemma size_props_sum (props : list (string * JsValue)) :
  list_sum (map (fun p => size (snd p)) props)
  = list_sum (map size (map snd props)).
Proof. now rewrite map_map. Qed.

Lemma size_chars (s : string) :
  forall x, In x (chars s) -> size x = 1.
Proof.
  induction s as [ | c s IH ]; simpl; intros x H; [ contradiction | ].
  destruct H as [ <- | H ]; auto.
Qed.

Lemma lookup_size_object (key : string) (props : list (string * JsValue)) :
  size (lookup key props) < size (JsObject props).
Proof.
  simpl. rewrite size_props_sum.
  destruct (lookup_In key props) as [ -> | H ]; simpl; [ lia | ].
  apply size_In_le in H. lia.
Qed.

(** A property is no larger than the value it is read from. *)
Lemma get_prop_size (v : JsValue) (key : string) (x : JsValue) :
  get_prop v key = Normal x -> size x <= size v.
Proof.
  destruct v as [ | | b | t | elems | props ]; simpl; try discriminate;
    intros [= <-].
  - simpl. lia.
  - destruct (lookup_In key (indexed (chars t))) as [ -> | H ];
      simpl; [ lia | ].
    rewrite indexed_values in H. apply size_chars in H. lia.
  - destruct (lookup_In key (indexed elems)) as [ -> | H ]; simpl; [ lia | ].
    rewrite indexed_values in H. apply size_In_le in H. lia.
  - pose proof (lookup_size_object key props) as H. simpl in H. simpl. lia.
Qed.

Lemma size_member (x : JsValue) (elems : list JsValue) :
  In x elems -> size x < size (JsArray elems).
Proof. intros H. apply size_In_le in H. simpl. lia. Qed.

(** ** The recursion of [generateType] *)

Section Unfolding.

Context {RT : Runtime} {PT : PropTypesType} {IV : Inspector}.

Variables self1 self2 : JsValue -> TypeDef.
Variable props : list (string * JsValue).

Let type := JsObject props.

Hypothesis agree : forall v, size v < size type -> self1 v = self2 v.

Lemma agree_value : self1 (lookup "value" props) = self2 (lookup "value" props).
Proof. apply agree. apply lookup_size_object. Qed.

Lemma generateShape_ext : generateShape self1 type = generateShape self2 type.
Proof.
  unfold generateShape. simpl.
  pose proof (lookup_size_object "value" props) as Hlt.
  destruct (Object_keys (lookup "value" props)) as [ keys | e ]; simpl; auto.
  erewrite mapM_ext_in; [ reflexivity | ].
  intros key _. simpl.
  destruct (get_prop (lookup "value" props) key) as [ nested | e ] eqn:E;
    simpl; auto.
  apply get_prop_size in E.
  rewrite agree by (fold type in Hlt; lia). reflexivity.
Qed.

Lemma generateObjectOf_ext :
  generateObjectOf self1 type = generateObjectOf self2 type.
Proof. unfold generateObjectOf. simpl. now rewrite agree_value. Qed.

Lemma generateArray_ext : generateArray self1 type = generateArray self2 type.
Proof. unfold generateArray. simpl. now rewrite agree_value. Qed.

Lemma generateUnion_ext : generateUnion self1 type = generateUnion self2 type.
Proof.
  unfold generateUnion. simpl.
  pose proof (lookup_size_object "value" props) as Hlt.
  destruct (lookup "value" props) as [ | | b | s | members | ps ]; auto.
  rewrite (fold_left_ext_in
             (fun acc m => push_both acc (self1 m))
             (fun acc m => push_both acc (self2 m))); auto.
  intros acc m Hm. apply size_member in Hm.
  rewrite agree by (fold type in Hlt; lia). reflexivity.
Qed.

End Unfolding.

Section Fuel.

Context {RT : Runtime} {PT : PropTypesType} {IV : Inspector}.

Lemma named_name : named_key "name".
Proof. reflexivity. Qed.

(** The body only consults [self] on values smaller than the descriptor. *)
Lemma generateType_body_ext (self1 self2 : JsValue -> TypeDef)
    (type : JsValue) (ep : ExtractedProp) :
  (forall v, size v < size type -> self1 v = self2 v) ->
  generateType_body self1 type ep = generateType_body self2 type ep.
Proof.
  intros H. unfold generateType_body.
  destruct (get_prop type "name") as [ kind | e ] eqn:Hk; simpl; auto.
  destruct kind as [ | | b | k | elems | ps ]; simpl; auto.
  destruct (get_prop_named_string type "name" k named_name Hk) as [props ->].
  destruct (String.eqb k CUSTOM); auto.
  destruct (String.eqb k FUNC); auto.
  destruct (String.eqb k SHAPE); [ now apply generateShape_ext | ].
  destruct (String.eqb k INSTANCEOF); auto.
  destruct (String.eqb k OBJECTOF); [ now apply generateObjectOf_ext | ].
  destruct (String.eqb k UNION); [ now apply generateUnion_ext | ].
  destruct (String.eqb k ENUM); auto.
  destruct (String.eqb k ARRAYOF); [ now apply generateArray_ext | ].
  reflexivity.
Qed.

(** Any fuel at least the size of the descriptor gives the same result. *)
Lemma generateType_rec_enough (ep : ExtractedProp) :
  forall fuel type, size type <= fuel ->
    generateType_rec fuel ep type = generateType type ep.
Proof.
  unfold generateType.
  induction fuel as [ fuel IH ] using lt_wf_ind.
  intros type Hle.
  destruct fuel as [ | fuel ].
  - now replace (size type) with 0 by lia.
  - destruct (size type) as [ | n ] eqn:Hs.
    + simpl. unfold generateType_body.
      destruct type; simpl in Hs; try discriminate; reflexivity.
    + simpl. f_equal. apply generateType_body_ext.
      intros v Hv. rewrite Hs in Hv.
      rewrite (IH fuel) by lia.
      rewrite (IH n) by lia.
      reflexivity.
Qed.

(** [generateType] satisfies the recursive equation of the source. *)
Lemma generateType_unfold (type : JsValue) (ep : ExtractedProp) :
  generateType type ep
  = try_catch (generateType_body (fun v => generateType v ep) type ep)
              unknown.
Proof.
  unfold generateType at 1.
  destruct (size type) as [ | n ] eqn:Hs.
  - unfold generateType_body.
    destruct type; simpl in Hs; try discriminate; reflexivity.
  - simpl. f_equal. apply generateType_body_ext.
    intros v Hv. apply generateType_rec_enough. lia.
Qed.

End Fuel.

(** ** Dispatch on the kind tag *)

Section Dispatch.

Context {RT : Runtime} {PT : PropTypesType} {IV : Inspector}.

Lemma kinds_apart (i j : nat) :
  i < 8 -> j < 8 -> i <> j ->
  String.eqb (nth i kinds "") (nth j kinds "") = false.
Proof.
  intros Hi Hj Hij. apply String.eqb_neq. intros E. apply Hij.
  apply (proj1 (NoDup_nth kinds "") PropTypesType_distinct i j Hi Hj E).
Qed.

Lemma is_kind_nth (i j : nat) :
  i < 8 -> j < 8 ->
  is_kind (JsString (nth i kinds "")) (nth j kinds "") = Nat.eqb i j.
Proof.
  intros Hi Hj. unfold is_kind. destruct (Nat.eqb_spec i j) as [ -> | Hij ].
  - apply String.eqb_refl.
  - now apply kinds_apart.
Qed.

Lemma is_kind_unrecognized (k : string) (i : nat) :
  ~ In k kinds -> i < 8 -> is_kind (JsString k) (nth i kinds "") = false.
Proof.
  intros Hk Hi. unfold is_kind. apply String.eqb_neq. intros E. apply Hk.
  rewrite E. apply nth_In. exact Hi.
Qed.

End Dispatch.

(** Rewrites every test [tag === PropTypesType.K] on a known tag. *)
Ltac kind_tests i :=
  change CUSTOM with (nth 0 kinds "");
  change FUNC with (nth 1 kinds "");
  change SHAPE with (nth 2 kinds "");
  change INSTANCEOF with (nth 3 kinds "");
  change OBJECTOF with (nth 4 kinds "");
  change UNION with (nth 5 kinds "");
  change ENUM with (nth 6 kinds "");
  change ARRAYOF with (nth 7 kinds "");
  repeat rewrite (is_kind_nth i) by lia;
  cbn [Nat.eqb];
  cbv beta iota delta [nth kinds].

Section Branches.

Context {RT : Runtime} {PT : PropTypesType} {IV : Inspector}.

Variable self : JsValue -> TypeDef.
Variable type : JsValue.
Variable ep : ExtractedProp.

Lemma body_CUSTOM :
  get_prop type "name" = Normal (JsString CUSTOM) ->
  generateType_body self type ep = generateCustom type.
Proof.
  intros Hn. unfold generateType_body. rewrite Hn. cbn [bind].
  kind_tests 0. reflexivity.
Qed.

Lemma body_FUNC :
  get_prop type "name" = Normal (JsString FUNC) ->
  generateType_body self type ep = generateFunc ep.
Proof.
  intros Hn. unfold generateType_body. rewrite Hn. cbn [bind].
  kind_tests 1. reflexivity.
Qed.

Lemma body_SHAPE :
  get_prop type "name" = Normal (JsString SHAPE) ->
  generateType_body self type ep = generateShape self type.
Proof.
  intros Hn. unfold generateType_body. rewrite Hn. cbn [bind].
  kind_tests 2. reflexivity.
Qed.

Lemma body_INSTANCEOF :
  get_prop type "name" = Normal (JsString INSTANCEOF) ->
  generateType_body self type ep
  = (v <- get_prop type "value" ;;
     Normal (createTypeDef (JsString INSTANCEOF) v JsUndefined None)).
Proof.
  intros Hn. unfold generateType_body. rewrite Hn. cbn [bind].
  kind_tests 3. reflexivity.
Qed.

Lemma body_OBJECTOF :
  get_prop type "name" = Normal (JsString OBJECTOF) ->
  generateType_body self type ep = generateObjectOf self type.
Proof.
  intros Hn. unfold generateType_body. rewrite Hn. cbn [bind].
  kind_tests 4. reflexivity.
Qed.

Lemma body_UNION :
  get_prop type "name" = Normal (JsString UNION) ->
  generateType_body self type ep = generateUnion self type.
Proof.
  intros Hn. unfold generateType_body. rewrite Hn. cbn [bind].
  kind_tests 5. reflexivity.
Qed.

Lemma body_ENUM :
  get_prop type "name" = Normal (JsString ENUM) ->
  generateType_body self type ep = generateEnum type.
Proof.
  intros Hn. unfold generateType_body. rewrite Hn. cbn [bind].
  kind_tests 6. reflexivity.
Qed.

Lemma body_ARRAYOF :
  get_prop type "name" = Normal (JsString ARRAYOF) ->
  generateType_body self type ep = generateArray self type.
Proof.
  intros Hn. unfold generateType_body. rewrite Hn. cbn [bind].
  kind_tests 7. reflexivity.
Qed.

Lemma body_default (kind : JsValue) :
  get_prop type "name" = Normal kind ->
  recognized kind = false ->
  generateType_body self type ep
  = Normal (createTypeDef kind kind JsUndefined None).
Proof.
  intros Hn Hk. unfold generateType_body. rewrite Hn. cbn [bind].
  unfold recognized, kinds in Hk. cbn [existsb] in Hk.
  repeat (apply orb_false_iff in Hk as [?H Hk]).
  repeat match goal with
         | H : is_kind kind _ = false |- _ => rewrite H; clear H
         end.
  reflexivity.
Qed.

End Branches.

(** ** Stripping the PropTypes qualifiers *)

Lemma replace_all_length (re : string -> option nat) (s : string) :
  forall skip, String.length (replace_all re skip s) <= String.length s.
Proof.
  induction s as [ | c s IH ]; intros skip; simpl; auto.
  destruct skip as [ | k ].
  - destruct (re (String c s)) as [ [ | k ] | ]; simpl.
    + specialize (IH 0). lia.
    + specialize (IH k). lia.
    + specialize (IH 0). lia.
  - specialize (IH k). lia.
Qed.

Lemma replace_all_shrinks (re : string -> option nat) (s : string) :
  occurs re s = true ->
  String.length (replace_all re 0 s) < String.length s.
Proof.
  induction s as [ | c s IH ]; simpl; [ discriminate | ].
  destruct (re (String c s)) as [ [ | k ] | ]; simpl; intros H.
  - apply IH in H. lia.
  - pose proof (replace_all_length re s k). lia.
  - apply IH in H. lia.
Qed.

Lemma replace_all_fixed (re : string -> option nat) (s : string) :
  occurs re s = false -> replace_all re 0 s = s.
Proof.
  induction s as [ | c s IH ]; simpl; auto.
  destruct (re (String c s)) as [ [ | k ] | ]; simpl; intros H;
    try discriminate; now rewrite IH.
Qed.

(** A string is left alone by the stripping exactly when neither token
    occurs in it. *)
Lemma shortifyPropTypes_fixed (t : string) :
  shortifyPropTypes_string t = t
  <-> occurs match_PropTypes t = false /\ occurs match_isRequired t = false.
Proof.
  unfold shortifyPropTypes_string. split.
  - intros E.
    destruct (occurs match_PropTypes t) eqn:H1.
    + apply replace_all_shrinks in H1.
      pose proof (replace_all_length match_isRequired
                    (replace_all match_PropTypes 0 t) 0) as H2.
      rewrite E in H2. lia.
    + rewrite (replace_all_fixed _ _ H1) in E.
      destruct (occurs match_isRequired t) eqn:H2; auto.
      apply replace_all_shrinks in H2. rewrite E in H2. lia.
  - intros [H1 H2].
    now rewrite (replace_all_fixed _ _ H1), (replace_all_fixed _ _ H2).
Qed.

Lemma contains_prefix (needle s : string) :
  contains needle s = false -> String.prefix needle s = false.
Proof.
  destruct s; simpl; intros H; apply orb_false_iff in H; tauto.
Qed.

Lemma no_PropTypes (t : string) :
  contains "PropTypes" t = false -> occurs match_PropTypes t = false.
Proof.
  induction t as [ | c t IH ]; [ reflexivity | ].
  intros H. cbn [contains] in H. apply orb_false_iff in H as [ Hp Ht ].
  cbn [occurs]. unfold match_PropTypes. rewrite Hp. now apply IH.
Qed.

Lemma no_isRequired (t : string) :
  contains "isRequired" t = false -> occurs match_isRequired t = false.
Proof.
  induction t as [ | c t IH ]; [ reflexivity | ].
  intros H. cbn [contains] in H. apply orb_false_iff in H as [ _ Ht ].
  cbn [occurs match_isRequired]. rewrite (contains_prefix _ _ Ht).
  rewrite (IH Ht). now destruct (line_terminator c).
Qed.

(** C4 (as amended): [shortifyPropTypes] leaves unchanged every string
    that contains neither [PropTypes] nor [isRequired]; applied to its own
    result it therefore changes nothing whenever the first pass left
    neither word behind.  One pass does not ensure that: removing a token
    can splice a new one together. *)
Theorem shortifyPropTypes_twice :
  (forall t,
      contains "PropTypes" t = false ->
      contains "isRequired" t = false ->
      shortifyPropTypes_string t = t)
  /\ (forall s,
         contains "PropTypes" (shortifyPropTypes_string s) = false ->
         contains "isRequired" (shortifyPropTypes_string s) = false ->
         shortifyPropTypes_string (shortifyPropTypes_string s)
         = shortifyPropTypes_string s).
Proof.
  assert (H : forall t,
             contains "PropTypes" t = false ->
             contains "isRequired" t = false ->
             shortifyPropTypes_string t = t).
  { intros t H1 H2. apply shortifyPropTypes_fixed.
    split; [ now apply no_PropTypes | now apply no_isRequired ]. }
  split; [ exact H | ].
  intros s H1 H2. now apply H.
Qed.

Lemma shortifyPropTypes_twice_witness :
  shortifyPropTypes_string "{ a: string }" = "{ a: string }"
  /\ shortifyPropTypes_string
       (shortifyPropTypes_string "PropTypes.string.isRequired")
     = shortifyPropTypes_string "PropTypes.string.isRequired".
Proof.
  split.
  - apply (proj1 shortifyPropTypes_twice); reflexivity.
  - apply (proj2 shortifyPropTypes_twice); reflexivity.
Defined.

(** C4, refuted as stated: the second pass removes the token that the
    first pass spliced together. *)
Lemma shortifyPropTypes_not_idempotent :
  shortifyPropTypes_string "PropPropTypes.Types.x" = "PropTypes.x"
  /\ shortifyPropTypes_string (shortifyPropTypes_string "PropPropTypes.Types.x")
     = "x"
  /\ shortifyPropTypes_string (shortifyPropTypes_string "PropPropTypes.Types.x")
     <> shortifyPropTypes_string "PropPropTypes.Types.x".
Proof. repeat split; try reflexivity. vm_compute. discriminate. Qed.

(** ** The fault policy of [generateType] *)

Section FaultPolicy.

Context {RT : Runtime} {PT : PropTypesType} {IV : Inspector}.

Lemma generateType_of_body (type : JsValue) (ep : ExtractedProp) (r : TypeDef) :
  generateType_body (fun v => generateType v ep) type ep = Normal r ->
  generateType type ep = r.
Proof. intros H. now rewrite generateType_unfold, H. Qed.

Lemma generateType_of_fault (type : JsValue) (ep : ExtractedProp) (e : JsError) :
  generateType_body (fun v => generateType v ep) type ep = Throw e ->
  generateType type ep = unknown.
Proof. intros H. now rewrite generateType_unfold, H. Qed.

Lemma generateType_unrecognized (type : JsValue) (ep : ExtractedProp)
    (kind : JsValue) :
  get_prop type "name" = Normal kind ->
  recognized kind = false ->
  generateType type ep = createTypeDef kind kind JsUndefined None.
Proof.
  intros Hn Hk. apply generateType_of_body. now apply body_default.
Qed.

Lemma recognized_string (k : string) :
  ~ In k kinds -> recognized (JsString k) = false.
Proof.
  intros Hk. unfold recognized, kinds in *. cbn [existsb is_kind].
  repeat (apply orb_false_iff; split); auto; apply String.eqb_neq;
    intros E; apply Hk; subst k; simpl; tauto.
Qed.

(** C1 (as amended): formatting never raises.  The result is the normal
    result of the dispatch, or the fixed fallback when the dispatch throws:
    on a nil descriptor, on a Shape whose value is nil, on a Custom whose raw
    text makes the classifier throw.  A descriptor of unrecognized kind is no
    fault: its name, caption and value are the kind tag itself. *)
Theorem generateType_never_raises :
  (forall type ep,
      (exists r,
          generateType_body (fun v => generateType v ep) type ep = Normal r
          /\ generateType type ep = r)
      \/ (exists e,
             generateType_body (fun v => generateType v ep) type ep = Throw e
             /\ generateType type ep = unknown))
  /\ unknown = mkTypeDef (JsString "unknown") (JsString "unknown")
                         (JsString "unknown") None
  /\ (forall type ep, isNil type = true -> generateType type ep = unknown)
  /\ (forall type ep mapping,
         get_prop type "name" = Normal (JsString SHAPE) ->
         get_prop type "value" = Normal mapping ->
         isNil mapping = true ->
         generateType type ep = unknown)
  /\ (forall type ep raw e,
         get_prop type "name" = Normal (JsString CUSTOM) ->
         get_prop type "raw" = Normal raw ->
         isNil raw = false ->
         inspectValue raw = Throw e ->
         generateType type ep = unknown)
  /\ (forall type ep k,
         get_prop type "name" = Normal (JsString k) ->
         ~ In k kinds ->
         generateType type ep
         = mkTypeDef (JsString k) (JsString k) (JsString k) None).
Proof.
  split; [ | split; [ | split; [ | split; [ | split ] ] ] ].
  - intros type ep. rewrite generateType_unfold.
    destruct (generateType_body _ type ep) as [ r | e ]; simpl; eauto.
  - reflexivity.
  - intros type ep Hnil. rewrite generateType_unfold.
    destruct type; try discriminate; reflexivity.
  - intros type ep mapping Hn Hv Hnil.
    rewrite generateType_unfold, (body_SHAPE _ _ ep Hn).
    unfold generateShape. rewrite Hv. cbn [bind].
    destruct mapping; try discriminate; reflexivity.
  - intros type ep raw e Hn Hr Hnil He.
    rewrite generateType_unfold, (body_CUSTOM _ _ ep Hn).
    unfold generateCustom. rewrite Hr. cbn [bind].
    rewrite Hnil. cbn [negb]. rewrite He. reflexivity.
  - intros type ep k Hn Hk.
    rewrite (generateType_unrecognized _ ep _ Hn (recognized_string _ Hk)).
    reflexivity.
Qed.

End FaultPolicy.

(** ** Shape, and ArrayOf over a Shape *)

Lemma strip_trailing_bracket_app (s : string) :
  strip_trailing_bracket (s ++ "]") = Some s.
Proof.
  induction s as [ | c s IH ]; [ reflexivity | ].
  change (String c s ++ "]") with (String c (s ++ "]")).
  cbn [strip_trailing_bracket].
  destruct (s ++ "]") eqn:E.
  - destruct s; discriminate.
  - now rewrite IH.
Qed.

Lemma strip_brackets_around (s : string) :
  strip_brackets ("[" ++ s ++ "]") = Some s.
Proof. apply strip_trailing_bracket_app. Qed.

Lemma mapM_map {A B C : Type} (f : B -> completion C) (g : A -> B)
    (l : list A) :
  mapM f (map g l) = mapM (fun x => f (g x)) l.
Proof.
  induction l as [ | x l IH ]; simpl; auto. now rewrite IH.
Qed.

Lemma lookup_NoDup (fields : list (string * JsValue)) :
  NoDup (map fst fields) ->
  forall p, In p fields -> lookup (fst p) fields = snd p.
Proof.
  induction fields as [ | [k x] l IH ]; simpl; intros Hnd p Hp;
    [ contradiction | ].
  inversion Hnd as [ | ? ? Hk Hl ]; subst.
  destruct Hp as [ <- | Hp ]; simpl.
  - now rewrite String.eqb_refl.
  - destruct (String.eqb k (fst p)) eqn:E.
    + apply String.eqb_eq in E. subst k. exfalso. apply Hk.
      now apply in_map.
    + now apply IH.
Qed.

Lemma In_insert_ascending {A : Type} (i : N) (x : A) (l : list (N * A)) :
  forall z, In z (insert_ascending i x l) -> z = (i, x) \/ In z l.
Proof.
  induction l as [ | [j y] l IH ]; simpl; intros z Hz.
  - destruct Hz as [ <- | [] ]. now left.
  - destruct (N.leb i j); simpl in Hz.
    + destruct Hz as [ <- | Hz ]; auto.
    + destruct Hz as [ <- | Hz ]; auto.
      apply IH in Hz. tauto.
Qed.

(** Enumeration reorders the properties and invents none. *)
Lemma enumeration_order_In {A : Type} (props : list (string * A)) :
  forall p, In p (enumeration_order props) -> In p props.
Proof.
  intros p Hp. unfold enumeration_order in Hp.
  apply in_app_or in Hp as [ Hp | Hp ].
  - apply in_map_iff in Hp as ([i q] & <- & Hq). cbn [snd].
    induction props as [ | r props IH ]; simpl in Hq; [ contradiction | ].
    destruct (array_index (fst r)).
    + apply In_insert_ascending in Hq as [ [= _ ->] | Hq ]; simpl; auto.
    + simpl. auto.
  - apply filter_In in Hp. tauto.
Qed.

(** Without array indices among the keys, enumeration is the order of
    creation. *)
Lemma enumeration_order_no_index {A : Type} (props : list (string * A)) :
  (forall p, In p props -> array_index (fst p) = None) ->
  enumeration_order props = props.
Proof.
  unfold enumeration_order. induction props as [ | r props IH ]; intros H;
    [ reflexivity | ].
  cbn [fold_right filter]. rewrite (H r) by (left; reflexivity).
  cbn [app] in *.
  rewrite <- IH at 3 by (intros p Hp; apply H; right; exact Hp).
  assert (E : fold_right
                (fun p sorted =>
                   match array_index (fst p) with
                   | Some i => insert_ascending i p sorted
                   | None => sorted
                   end) [] props = []).
  { clear IH. induction props as [ | q props IHp ]; [ reflexivity | ].
    cbn [fold_right].
    rewrite (H q) by (right; left; reflexivity).
    apply IHp. intros p [ <- | Hp ]; apply H; simpl; auto. }
  rewrite E. reflexivity.
Qed.

(** A traversal that succeeds on a list succeeds on every list drawn
    from its elements. *)
Lemma mapM_incl {A B : Type} (f : A -> completion B) (l l' : list A) :
  (forall x, In x l' -> In x l) ->
  forall r, mapM f l = Normal r -> exists r', mapM f l' = Normal r'.
Proof.
  intros Hincl r Hr.
  assert (Hall : forall x, In x l -> exists y, f x = Normal y).
  { clear Hincl. revert r Hr.
    induction l as [ | a l IH ]; simpl; intros r Hr x Hx; [ contradiction | ].
    destruct (f a) as [ y | ] eqn:Ha; simpl in Hr; try discriminate.
    destruct (mapM f l) as [ ys | ]; simpl in Hr; try discriminate.
    destruct Hx as [ <- | Hx ]; eauto. }
  induction l' as [ | a l' IH ]; simpl; [ eauto | ].
  destruct (Hall a (Hincl a (or_introl eq_refl))) as [ y Hy ].
  destruct IH as [ ys Hys ]; [ intros x Hx; apply Hincl; now right | ].
  rewrite Hy, Hys. simpl. eauto.
Qed.

Section ShapeFacts.

Context {RT : Runtime} {PT : PropTypesType} {IV : Inspector}.

Lemma generateType_shape (type : JsValue) (ep : ExtractedProp)
    (fields : list (string * JsValue)) (rendered : list string) :
  get_prop type "name" = Normal (JsString SHAPE) ->
  get_prop type "value" = Normal (JsObject fields) ->
  NoDup (map fst fields) ->
  mapM (field_text ep) (enumeration_order fields) = Normal rendered ->
  generateType type ep
  = mkTypeDef (JsString SHAPE)
              (JsString (if Nat.leb (String.length (shape_text rendered))
                                    MAX_CAPTION_LENGTH
                         then shape_text rendered else "object"))
              (JsString (shape_text rendered))
              None.
Proof.
  intros Hn Hv Hnd Hr.
  apply generateType_of_body. rewrite (body_SHAPE _ _ ep Hn).
  unfold generateShape. rewrite Hv. cbn [bind Object_keys own_properties].
  rewrite mapM_map.
  rewrite (mapM_ext_in _ (field_text ep)).
  - rewrite Hr. reflexivity.
  - intros p Hp. cbn [get_prop own_properties bind].
    now rewrite (lookup_NoDup _ Hnd p (enumeration_order_In fields p Hp)).
Qed.

(** A Shape whose fields render in the order of their creation renders
    in the order of their enumeration too. *)
Lemma generateType_shape_any_order (type : JsValue) (ep : ExtractedProp)
    (fields : list (string * JsValue)) (rendered : list string) :
  get_prop type "name" = Normal (JsString SHAPE) ->
  get_prop type "value" = Normal (JsObject fields) ->
  NoDup (map fst fields) ->
  mapM (field_text ep) fields = Normal rendered ->
  exists enumerated,
    generateType type ep
    = mkTypeDef (JsString SHAPE)
                (JsString (if Nat.leb (String.length (shape_text enumerated))
                                      MAX_CAPTION_LENGTH
                           then shape_text enumerated else "object"))
                (JsString (shape_text enumerated))
                None.
Proof.
  intros Hn Hv Hnd Hr.
  destruct (mapM_incl (field_text ep) fields (enumeration_order fields)
              (enumeration_order_In fields) rendered Hr) as [ enumerated He ].
  exists enumerated. now apply (generateType_shape type ep fields).
Qed.

(** C2 (as amended): a Shape descriptor over a mapping is rendered as
    the brace-wrapped list of its fields, each [key: value] of the
    recursively formatted field, in the order in which [Object.keys]
    enumerates the mapping: the keys that are array indices first, in
    ascending numeric order, then the other keys in the order of their
    declaration, which is the order of all the fields when no key is an
    array index.  The value is that string whatever its length, the caption
    is that string when it has at most 35 characters and ["object"]
    otherwise. *)
Theorem generateShape_caption_value (type : JsValue) (ep : ExtractedProp)
    (fields : list (string * JsValue)) (rendered : list string) :
  get_prop type "name" = Normal (JsString SHAPE) ->
  get_prop type "value" = Normal (JsObject fields) ->
  NoDup (map fst fields) ->
  mapM (field_text ep) (enumeration_order fields) = Normal rendered ->
  let shape := shape_text rendered in
  name (generateType type ep) = JsString SHAPE
  /\ value (generateType type ep) = JsString shape
  /\ (String.length shape <= 35 ->
      caption (generateType type ep) = JsString shape)
  /\ (35 < String.length shape ->
      caption (generateType type ep) = JsString "object")
  /\ ((forall field, In field fields -> array_index (fst field) = None) ->
      enumeration_order fields = fields).
Proof.
  intros Hn Hv Hnd Hr shape.
  rewrite (generateType_shape _ _ _ _ Hn Hv Hnd Hr). fold shape.
  cbn [name value caption]. repeat split.
  - intros Hle. apply Nat.leb_le in Hle. unfold MAX_CAPTION_LENGTH.
    now rewrite Hle.
  - intros Hgt. apply Nat.leb_gt in Hgt. unfold MAX_CAPTION_LENGTH.
    now rewrite Hgt.
  - apply enumeration_order_no_index.
Qed.

(** C5: ArrayOf over a Shape brackets the Shape's full value, so that
    stripping the two brackets gives the Shape's value back; the caption is
    the bracketed value when the Shape's value has at most 35 characters and
    the Shape's own caption followed by ["[]"] otherwise. *)
Theorem generateArray_of_shape (type : JsValue) (ep : ExtractedProp)
    (nested : JsValue) (fields : list (string * JsValue))
    (rendered : list string) :
  get_prop type "name" = Normal (JsString ARRAYOF) ->
  get_prop type "value" = Normal nested ->
  get_prop nested "name" = Normal (JsString SHAPE) ->
  get_prop nested "value" = Normal (JsObject fields) ->
  NoDup (map fst fields) ->
  mapM (field_text ep) fields = Normal rendered ->
  exists shapeValue shapeCaption,
    value (generateType nested ep) = JsString shapeValue
    /\ caption (generateType nested ep) = JsString shapeCaption
    /\ value (generateType type ep) = JsString ("[" ++ shapeValue ++ "]")
    /\ strip_brackets ("[" ++ shapeValue ++ "]") = Some shapeValue
    /\ (String.length shapeValue <= 35 ->
        caption (generateType type ep)
        = JsString ("[" ++ shapeValue ++ "]"))
    /\ (35 < String.length shapeValue ->
        caption (generateType type ep) = JsString (shapeCaption ++ "[]")).
Proof.
  intros Hn Hv Hsn Hsv Hnd Hr.
  destruct (generateType_shape_any_order _ _ _ _ Hsn Hsv Hnd Hr)
    as [ enumerated Hs ].
  set (sv := shape_text enumerated) in *.
  exists sv. eexists.
  rewrite (generateType_of_body type ep
             (mkTypeDef (JsString ARRAYOF)
                (JsString (if Nat.leb (String.length sv) MAX_CAPTION_LENGTH
                           then "[" ++ sv ++ "]"
                           else (if Nat.leb (String.length sv)
                                            MAX_CAPTION_LENGTH
                                 then sv else "object") ++ "[]"))
                (JsString ("[" ++ sv ++ "]")) None)).
  - rewrite Hs. cbn [name value caption].
    split; [ reflexivity | ]. split; [ reflexivity | ].
    split; [ reflexivity | ].
    split; [ apply strip_brackets_around | ].
    unfold MAX_CAPTION_LENGTH. split.
    + intros Hle. apply Nat.leb_le in Hle. now rewrite Hle.
    + intros Hgt. apply Nat.leb_gt in Hgt. now rewrite Hgt.
  - rewrite (body_ARRAYOF _ _ ep Hn). unfold generateArray.
    rewrite Hv. cbn [bind]. rewrite Hs. cbn [name value caption].
    kind_tests 2.
    cbn [length_le bind braceAround braceAfter ToString].
    destruct (Nat.leb (String.length sv) MAX_CAPTION_LENGTH); reflexivity.
Qed.

End ShapeFacts.

(** ** Custom, and the wrappers ObjectOf and ArrayOf *)

Section Wrappers.

Context {RT : Runtime} {PT : PropTypesType} {IV : Inspector}.

Lemma InspectionType_eqb_refl (a : InspectionType) :
  InspectionType_eqb a a = true.
Proof. now apply InspectionType_eqb_spec. Qed.

Lemma InspectionType_eqb_neq (a b : InspectionType) :
  a <> b -> InspectionType_eqb a b = false.
Proof.
  intros H. destruct (InspectionType_eqb a b) eqn:E; auto.
  apply InspectionType_eqb_spec in E. contradiction.
Qed.

Lemma generateType_custom (type : JsValue) (ep : ExtractedProp)
    (raw : string) (inferedType : InspectionType) :
  get_prop type "name" = Normal (JsString CUSTOM) ->
  get_prop type "raw" = Normal (JsString raw) ->
  inspectValue (JsString raw) = Normal inferedType ->
  generateType type ep
  = mkTypeDef (JsString CUSTOM)
              (JsString (if Nat.leb (String.length (custom_text inferedType raw))
                                    MAX_CAPTION_LENGTH
                         then custom_text inferedType raw else "custom"))
              (JsString (custom_text inferedType raw))
              (Some inferedType).
Proof.
  intros Hn Hr Hi. apply generateType_of_body.
  rewrite (body_CUSTOM _ _ ep Hn). unfold generateCustom, custom_text.
  rewrite Hr. cbn [bind isNil negb]. rewrite Hi. cbn [bind].
  destruct (InspectionType_eqb inferedType OBJECT);
    cbn [shortifyPropTypes bind length_le];
    match goal with
    | |- context [Nat.leb ?a ?b] => destruct (Nat.leb a b)
    end; reflexivity.
Qed.

Lemma generateType_custom_no_raw (type : JsValue) (ep : ExtractedProp)
    (raw : JsValue) :
  get_prop type "name" = Normal (JsString CUSTOM) ->
  get_prop type "raw" = Normal raw ->
  isNil raw = true ->
  generateType type ep
  = mkTypeDef (JsString CUSTOM) (JsString "custom") (JsString "custom") None.
Proof.
  intros Hn Hr Hnil. apply generateType_of_body.
  rewrite (body_CUSTOM _ _ ep Hn). unfold generateCustom.
  rewrite Hr. cbn [bind]. rewrite Hnil. reflexivity.
Qed.

Lemma generateType_objectOf (type : JsValue) (ep : ExtractedProp)
    (nested : JsValue) (r : TypeDef) :
  get_prop type "name" = Normal (JsString OBJECTOF) ->
  get_prop type "value" = Normal nested ->
  generateObjectOf (fun v => generateType v ep) type = Normal r ->
  generateType type ep = r.
Proof.
  intros Hn Hv Hr. apply generateType_of_body.
  now rewrite (body_OBJECTOF _ _ ep Hn).
Qed.

Lemma generateType_array (type : JsValue) (ep : ExtractedProp)
    (nested : JsValue) (r : TypeDef) :
  get_prop type "name" = Normal (JsString ARRAYOF) ->
  get_prop type "value" = Normal nested ->
  generateArray (fun v => generateType v ep) type = Normal r ->
  generateType type ep = r.
Proof.
  intros Hn Hv Hr. apply generateType_of_body.
  now rewrite (body_ARRAYOF _ _ ep Hn).
Qed.

(** ObjectOf when the nested result is a Custom whose inferred kind is
    neither String nor Object. *)
Lemma objectOf_custom_other (type : JsValue) (ep : ExtractedProp)
    (nested : JsValue) (it : InspectionType) (v : string) :
  get_prop type "name" = Normal (JsString OBJECTOF) ->
  get_prop type "value" = Normal nested ->
  name (generateType nested ep) = JsString CUSTOM ->
  inferedType (generateType nested ep) = Some it ->
  it <> STRING -> it <> OBJECT ->
  ToString (value (generateType nested ep)) = Normal v ->
  generateType type ep
  = mkTypeDef (JsString OBJECTOF)
              (JsString ("objectOf(" ++ toString it ++ ")"))
              (JsString ("objectOf(" ++ v ++ ")")) None.
Proof.
  intros Hn Hv Hk Hi Hs Ho Hval.
  apply (generateType_objectOf _ _ nested); auto.
  unfold generateObjectOf. rewrite Hv. cbn [bind]. rewrite Hk, Hi.
  kind_tests 0.
  rewrite (InspectionType_eqb_neq _ _ Hs), (InspectionType_eqb_neq _ _ Ho).
  cbn [negb andb bind ToString]. rewrite Hval. reflexivity.
Qed.

(** ObjectOf when the nested result is a Shape with a short full value. *)
Lemma objectOf_short_shape (type : JsValue) (ep : ExtractedProp)
    (nested : JsValue) (full : string) :
  get_prop type "name" = Normal (JsString OBJECTOF) ->
  get_prop type "value" = Normal nested ->
  name (generateType nested ep) = JsString SHAPE ->
  value (generateType nested ep) = JsString full ->
  String.length full <= 35 ->
  generateType type ep
  = mkTypeDef (JsString OBJECTOF)
              (JsString ("objectOf(" ++ full ++ ")"))
              (JsString ("objectOf(" ++ full ++ ")")) None.
Proof.
  intros Hn Hv Hk Hval Hle.
  apply (generateType_objectOf _ _ nested); auto.
  unfold generateObjectOf. rewrite Hv. cbn [bind]. rewrite Hk, Hval.
  kind_tests 2. cbn [length_le bind].
  apply Nat.leb_le in Hle. unfold MAX_CAPTION_LENGTH. rewrite Hle.
  reflexivity.
Qed.

(** ObjectOf when neither exception applies. *)
Lemma objectOf_plain (type : JsValue) (ep : ExtractedProp)
    (nested : JsValue) (c v : string) :
  get_prop type "name" = Normal (JsString OBJECTOF) ->
  get_prop type "value" = Normal nested ->
  (name (generateType nested ep) = JsString CUSTOM ->
   inferedType (generateType nested ep) = None
   \/ inferedType (generateType nested ep) = Some STRING
   \/ inferedType (generateType nested ep) = Some OBJECT) ->
  (name (generateType nested ep) = JsString SHAPE ->
   exists full, value (generateType nested ep) = JsString full
                /\ 35 < String.length full) ->
  ToString (caption (generateType nested ep)) = Normal c ->
  ToString (value (generateType nested ep)) = Normal v ->
  generateType type ep
  = mkTypeDef (JsString OBJECTOF)
              (JsString ("objectOf(" ++ c ++ ")"))
              (JsString ("objectOf(" ++ v ++ ")")) None.
Proof.
  intros Hn Hv Hcustom Hshape Hc Hval.
  apply (generateType_objectOf _ _ nested); auto.
  unfold generateObjectOf. rewrite Hv. cbn [bind].
  set (r := generateType nested ep) in *.
  destruct (name r) as [ | | b | k | elems | ps ] eqn:Hk;
    try (cbn [is_kind bind]; rewrite Hc, Hval; reflexivity).
  cbn [is_kind].
  destruct (String.eqb k CUSTOM) eqn:E1.
  - apply String.eqb_eq in E1. subst k.
    destruct (Hcustom eq_refl) as [ Hi | [ Hi | Hi ] ]; rewrite Hi.
    + cbn [bind]. rewrite Hc, Hval. reflexivity.
    + rewrite InspectionType_eqb_refl.
      cbn [negb andb bind]. rewrite Hc, Hval. reflexivity.
    + rewrite InspectionType_eqb_refl.
      rewrite andb_false_r. cbn [bind]. rewrite Hc, Hval. reflexivity.
  - destruct (String.eqb k SHAPE) eqn:E2.
    + apply String.eqb_eq in E2. subst k.
      destruct (Hshape eq_refl) as [ full [ Hfull Hlen ] ].
      rewrite Hfull in *. cbn [length_le bind].
      apply Nat.leb_gt in Hlen. unfold MAX_CAPTION_LENGTH. rewrite Hlen.
      cbn [bind]. rewrite Hc. cbn [ToString bind] in *.
      injection Hval as <-. reflexivity.
    + cbn [bind]. rewrite Hc, Hval. reflexivity.
Qed.

(** C6: ObjectOf wraps the nested caption and value as ["objectOf(X)"].
    A nested Custom whose inferred kind is neither String nor Object shows
    the display name of that kind as caption; a nested Shape whose full
    value has at most 35 characters shows that value as caption.  ObjectOf
    over a Custom with raw text ["PropTypes.string"] classified as String
    has caption and value ["objectOf(PropTypes.string)"]. *)
Theorem generateObjectOf_wraps :
  (forall type ep nested c v,
      get_prop type "name" = Normal (JsString OBJECTOF) ->
      get_prop type "value" = Normal nested ->
      (name (generateType nested ep) = JsString CUSTOM ->
       inferedType (generateType nested ep) = None
       \/ inferedType (generateType nested ep) = Some STRING
       \/ inferedType (generateType nested ep) = Some OBJECT) ->
      (name (generateType nested ep) = JsString SHAPE ->
       exists full, value (generateType nested ep) = JsString full
                    /\ 35 < String.length full) ->
      ToString (caption (generateType nested ep)) = Normal c ->
      ToString (value (generateType nested ep)) = Normal v ->
      generateType type ep
      = mkTypeDef (JsString OBJECTOF)
                  (JsString ("objectOf(" ++ c ++ ")"))
                  (JsString ("objectOf(" ++ v ++ ")")) None)
  /\ (forall type ep nested it v,
         get_prop type "name" = Normal (JsString OBJECTOF) ->
         get_prop type "value" = Normal nested ->
         name (generateType nested ep) = JsString CUSTOM ->
         inferedType (generateType nested ep) = Some it ->
         it <> STRING -> it <> OBJECT ->
         ToString (value (generateType nested ep)) = Normal v ->
         generateType type ep
         = mkTypeDef (JsString OBJECTOF)
                     (JsString ("objectOf(" ++ toString it ++ ")"))
                     (JsString ("objectOf(" ++ v ++ ")")) None)
  /\ (forall type ep nested full,
         get_prop type "name" = Normal (JsString OBJECTOF) ->
         get_prop type "value" = Normal nested ->
         name (generateType nested ep) = JsString SHAPE ->
         value (generateType nested ep) = JsString full ->
         String.length full <= 35 ->
         generateType type ep
         = mkTypeDef (JsString OBJECTOF)
                     (JsString ("objectOf(" ++ full ++ ")"))
                     (JsString ("objectOf(" ++ full ++ ")")) None)
  /\ (forall type ep nested,
         get_prop type "name" = Normal (JsString OBJECTOF) ->
         get_prop type "value" = Normal nested ->
         get_prop nested "name" = Normal (JsString CUSTOM) ->
         get_prop nested "raw" = Normal (JsString "PropTypes.string") ->
         inspectValue (JsString "PropTypes.string") = Normal STRING ->
         generateType type ep
         = mkTypeDef (JsString OBJECTOF)
                     (JsString "objectOf(PropTypes.string)")
                     (JsString "objectOf(PropTypes.string)") None).
Proof.
  split; [ exact objectOf_plain | ].
  split; [ exact objectOf_custom_other | ].
  split; [ exact objectOf_short_shape | ].
  intros type ep nested Hn Hv Hcn Hcr Hi.
  pose proof (generateType_custom nested ep _ _ Hcn Hcr Hi) as Hc.
  unfold custom_text in Hc.
  rewrite (InspectionType_eqb_neq _ _ STRING_not_OBJECT) in Hc.
  change (Nat.leb (String.length "PropTypes.string") MAX_CAPTION_LENGTH)
    with true in Hc.
  cbv iota in Hc.
  apply (objectOf_plain type ep nested "PropTypes.string" "PropTypes.string");
    auto; rewrite Hc; cbn [name value caption inferedType ToString]; auto.
  intros Hk. injection Hk as Hk.
  exfalso. apply (String.eqb_neq CUSTOM SHAPE); auto.
  change (String.eqb (nth 0 kinds "") (nth 2 kinds "") = false).
  apply kinds_apart; lia.
Qed.

(** C3 (the code, where it departs from the claim): for ArrayOf over a
    Custom element with raw text whose inferred kind is neither String nor
    Object, [generateArray] returns the raw text followed by ["[]"] as both
    caption and value.  The display name of the inferred kind is stored in
    the local [caption] and never returned. *)
Theorem generateArray_custom_other_kind (type : JsValue) (ep : ExtractedProp)
    (nested : JsValue) (raw : string) (it : InspectionType) :
  get_prop type "name" = Normal (JsString ARRAYOF) ->
  get_prop type "value" = Normal nested ->
  get_prop nested "name" = Normal (JsString CUSTOM) ->
  get_prop nested "raw" = Normal (JsString raw) ->
  inspectValue (JsString raw) = Normal it ->
  it <> STRING -> it <> OBJECT ->
  generateType type ep
  = mkTypeDef (JsString ARRAYOF) (JsString (raw ++ "[]"))
              (JsString (raw ++ "[]")) None.
Proof.
  intros Hn Hv Hcn Hcr Hi Hs Ho.
  pose proof (generateType_custom nested ep _ _ Hcn Hcr Hi) as Hc.
  unfold custom_text in Hc.
  rewrite (InspectionType_eqb_neq _ _ Ho) in Hc.
  apply (generateType_array _ _ nested); auto.
  unfold generateArray. rewrite Hv. cbn [bind]. rewrite Hc.
  cbn [name value caption inferedType].
  kind_tests 0.
  rewrite (InspectionType_eqb_neq _ _ Hs), (InspectionType_eqb_neq _ _ Ho).
  reflexivity.
Qed.

(** The final [return] of [generateArray]: the nested value followed by
    ["[]"] is the caption, and no value is passed. *)
Lemma array_generic (type : JsValue) (ep : ExtractedProp)
    (nested : JsValue) (v : string) :
  get_prop type "name" = Normal (JsString ARRAYOF) ->
  get_prop type "value" = Normal nested ->
  is_kind (name (generateType nested ep)) CUSTOM = false ->
  is_kind (name (generateType nested ep)) SHAPE = false ->
  ToString (value (generateType nested ep)) = Normal v ->
  generateType type ep
  = mkTypeDef (JsString ARRAYOF) (JsString (v ++ "[]"))
              (JsString (v ++ "[]")) None.
Proof.
  intros Hn Hv Hc Hs Hval.
  apply (generateType_array _ _ nested); auto.
  unfold generateArray. rewrite Hv. cbn [bind]. rewrite Hc, Hs.
  unfold braceAfter. rewrite Hval. reflexivity.
Qed.

End Wrappers.

(** ** Func *)

Lemma append_empty_r (s : string) : s ++ "" = s.
Proof. induction s as [ | c s IH ]; simpl; congruence. Qed.

Lemma generateFuncParam_text (p : ExtractedJsDocParam) :
  generateFuncParam p = parameter_text p.
Proof.
  unfold generateFuncParam, parameter_text.
  destruct (getTypeName p); [ reflexivity | now rewrite append_empty_r ].
Qed.

Section FuncFacts.

Context {RT : Runtime} {PT : PropTypesType} {IV : Inspector}.

Lemma generateFuncSignature_text (ep : ExtractedProp) (tags : ExtractedJsDoc) :
  jsDocTags ep = Some tags ->
  generateFuncSignature ep (is_some (params tags)) (is_some (returns tags))
  = Normal (signature_text (params tags) (returns tags)).
Proof.
  intros Ht. unfold generateFuncSignature, signature_text. rewrite Ht.
  cbn [deref bind].
  destruct (params tags) as [ ps | ]; destruct (returns tags) as [ r | ];
    cbn [is_some deref bind push app String.concat];
    rewrite ?(map_ext _ _ generateFuncParam_text), ?append_empty_r.
  - reflexivity.
  - reflexivity.
  - reflexivity.
  - reflexivity.
Qed.

Lemma generateType_func (type : JsValue) (ep : ExtractedProp) :
  get_prop type "name" = Normal (JsString FUNC) ->
  generateType type ep
  = mkTypeDef (JsString FUNC) (JsString "func") (JsString (func_value ep)) None.
Proof.
  intros Hn. apply generateType_of_body. rewrite (body_FUNC _ _ ep Hn).
  unfold generateFunc, func_value.
  destruct (jsDocTags ep) as [ tags | ] eqn:Ht; [ | reflexivity ].
  destruct (is_some (params tags) || is_some (returns tags));
    [ | reflexivity ].
  now rewrite (generateFuncSignature_text ep tags Ht).
Qed.

(** C7: the caption of a Func is always ["func"].  With documented
    parameters or a documented return type the value is the signature; with
    neither, no separate value is produced and the value is the caption.
    Parameters [x: number] and [y] with return type [string] give
    ["(x: number, y) => string"]. *)
Theorem generateFunc_signature :
  (forall type ep,
      get_prop type "name" = Normal (JsString FUNC) ->
      caption (generateType type ep) = JsString "func")
  /\ (forall type ep tags,
         get_prop type "name" = Normal (JsString FUNC) ->
         jsDocTags ep = Some tags ->
         params tags <> None \/ returns tags <> None ->
         value (generateType type ep)
         = JsString (signature_text (params tags) (returns tags)))
  /\ (forall type ep,
         get_prop type "name" = Normal (JsString FUNC) ->
         jsDocTags ep = None
         \/ (exists tags, jsDocTags ep = Some tags
                          /\ params tags = None /\ returns tags = None) ->
         value (generateType type ep) = caption (generateType type ep))
  /\ signature_text
       (Some [ {| getPrettyName := "x"; getTypeName := Some "number" |};
               {| getPrettyName := "y"; getTypeName := None |} ])
       (Some {| returns_getTypeName := "string" |})
     = "(x: number, y) => string"
  /\ signature_text None None = "()"
  /\ signature_text (Some []) None = "()".
Proof.
  split; [ | split; [ | split; [ | split; [ | split ] ] ] ];
    try reflexivity.
  - intros type ep Hn. now rewrite (generateType_func _ _ Hn).
  - intros type ep tags Hn Ht Hdoc.
    rewrite (generateType_func _ _ Hn). cbn [value].
    unfold func_value. rewrite Ht.
    destruct (params tags), (returns tags); try reflexivity.
    destruct Hdoc; congruence.
  - intros type ep Hn Hno.
    rewrite (generateType_func _ _ Hn). cbn [value caption].
    unfold func_value.
    destruct Hno as [ -> | [ tags [ -> [ -> -> ] ] ] ]; reflexivity.
Qed.

End FuncFacts.

(** ** The rendering entry point *)

Section Rendering.

Context {RT : Runtime} {PT : PropTypesType} {IV : Inspector}.

Lemma renderType_captioned (ep : ExtractedProp) (k : string) :
  get_prop (docgenInfo_type ep) "name" = Normal (JsString k) ->
  In k captioned_kinds ->
  renderType ep
  = Normal (PropText
              (caption (generateType (docgenInfo_type ep) ep))
              (Some {| title :=
                         if negb (strict_eq
                                    (caption (generateType (docgenInfo_type ep) ep))
                                    (value (generateType (docgenInfo_type ep) ep)))
                         then value (generateType (docgenInfo_type ep) ep)
                         else JsUndefined |})).
Proof.
  intros Hn Hk. unfold renderType. rewrite Hn. cbn [bind is_kind].
  replace (String.eqb k CUSTOM || String.eqb k SHAPE
           || String.eqb k INSTANCEOF || String.eqb k OBJECTOF
           || String.eqb k UNION || String.eqb k ENUM
           || String.eqb k ARRAYOF) with true; [ reflexivity | ].
  symmetry. unfold captioned_kinds in Hk. cbn [In] in Hk.
  repeat (destruct Hk as [ <- | Hk ];
          [ rewrite String.eqb_refl, ?orb_true_r; reflexivity | ]).
  contradiction.
Qed.

Lemma renderType_func (ep : ExtractedProp) :
  get_prop (docgenInfo_type ep) "name" = Normal (JsString FUNC) ->
  renderType ep
  = Normal (PropText (value (generateType (docgenInfo_type ep) ep)) None).
Proof.
  intros Hn. unfold renderType. rewrite Hn. cbn [bind].
  kind_tests 1. reflexivity.
Qed.

Lemma renderType_other (ep : ExtractedProp) (kind : JsValue) :
  get_prop (docgenInfo_type ep) "name" = Normal kind ->
  recognized kind = false ->
  renderType ep = Normal RenderNull.
Proof.
  intros Hn Hk. unfold renderType. rewrite Hn. cbn [bind].
  unfold recognized, kinds in Hk. cbn [existsb] in Hk.
  repeat (apply orb_false_iff in Hk as [?H Hk]).
  repeat match goal with
         | H : is_kind kind _ = false |- _ => rewrite H; clear H
         end.
  reflexivity.
Qed.

(** C8: the entry point renders the kinds Custom, Shape, InstanceOf,
    ObjectOf, Union, Enum, ArrayOf and Func, and nothing for any other kind.
    For the first seven the text is the caption, and the title is the value
    when caption and value differ and is absent when they are equal; for
    Func the text is the value and no title is passed. *)
Theorem renderType_output :
  (forall ep k,
      get_prop (docgenInfo_type ep) "name" = Normal (JsString k) ->
      In k captioned_kinds ->
      exists detail,
        renderType ep
        = Normal (createPropText
                    (caption (generateType (docgenInfo_type ep) ep))
                    (Some {| title := detail |}))
        /\ (caption (generateType (docgenInfo_type ep) ep)
            <> value (generateType (docgenInfo_type ep) ep) ->
            detail = value (generateType (docgenInfo_type ep) ep))
        /\ (caption (generateType (docgenInfo_type ep) ep)
            = value (generateType (docgenInfo_type ep) ep) ->
            detail = JsUndefined))
  /\ (forall ep,
         get_prop (docgenInfo_type ep) "name" = Normal (JsString FUNC) ->
         renderType ep
         = Normal (createPropText
                     (value (generateType (docgenInfo_type ep) ep)) None))
  /\ (forall ep kind,
         get_prop (docgenInfo_type ep) "name" = Normal kind ->
         recognized kind = false ->
         renderType ep = Normal RenderNull).
Proof.
  split; [ | split ].
  - intros ep k Hn Hk. rewrite (renderType_captioned ep k Hn Hk).
    eexists. split; [ reflexivity | ]. split.
    + intros Hneq.
      destruct (strict_eq _ _) eqn:E; [ | reflexivity ].
      apply strict_eq_spec in E. contradiction.
    + intros Heq. rewrite Heq, strict_eq_refl. reflexivity.
  - exact renderType_func.
  - exact renderType_other.
Qed.

End Rendering.

(** ** Union and Enum *)

Lemma map_reorder {A B : Type} (f : A -> B) (order : list nat) (l : list A) :
  map f (reorder order l) = reorder order (map f l).
Proof.
  unfold reorder. induction order as [ | i order IH ]; simpl; auto.
  rewrite map_app, IH, nth_error_map.
  destruct (nth_error l i); reflexivity.
Qed.

Lemma mapM_app {A B : Type} (g : A -> completion B) (a b : list A) :
  mapM g (a ++ b)%list
  = (xs <- mapM g a ;; ys <- mapM g b ;; Normal (xs ++ ys)%list).
Proof.
  induction a as [ | x a IH ]; simpl.
  - destruct (mapM g b); reflexivity.
  - destruct (g x); simpl; auto. rewrite IH.
    destruct (mapM g a); simpl; auto.
    destruct (mapM g b); reflexivity.
Qed.

Lemma mapM_nth_error {A B : Type} (g : A -> completion B) (l : list A) :
  forall rs, mapM g l = Normal rs ->
  forall i, mapM g (match nth_error l i with Some x => [x] | None => [] end)
            = Normal (match nth_error rs i with Some r => [r] | None => [] end).
Proof.
  induction l as [ | x l IH ]; simpl; intros rs H i.
  - injection H as <-. destruct i; reflexivity.
  - destruct (g x) as [ y | ] eqn:Hx; simpl in H; try discriminate.
    destruct (mapM g l) as [ ys | ]; simpl in H; try discriminate.
    injection H as <-. destruct i as [ | i ]; simpl.
    + now rewrite Hx.
    + now apply IH.
Qed.

Lemma mapM_reorder {A B : Type} (g : A -> completion B) (order : list nat)
    (l : list A) (rs : list B) :
  mapM g l = Normal rs ->
  mapM g (reorder order l) = Normal (reorder order rs).
Proof.
  intros H. unfold reorder.
  induction order as [ | i order IH ]; simpl; auto.
  rewrite mapM_app, IH, (mapM_nth_error g l rs H i). reflexivity.
Qed.

Lemma Array_join_strings (sep : string) (l : list string) :
  Array_join sep (map JsString l) = Normal (String.concat sep l).
Proof.
  unfold Array_join.
  assert (H : mapM (fun x => if isNil x then Normal "" else ToString x)
                   (map JsString l) = Normal l).
  { induction l as [ | s l IH ]; simpl; auto. now rewrite IH. }
  now rewrite H.
Qed.

Section Joins.

Context {RT : Runtime} {PT : PropTypesType} {IV : Inspector}.

Lemma fold_left_push_both (f : JsValue -> TypeDef) (l : list JsValue) :
  forall cs vs,
    fold_left (fun acc m => push_both acc (f m)) l (cs, vs)
    = ((cs ++ map (fun m => caption (f m)) l)%list,
       (vs ++ map (fun m => value (f m)) l)%list).
Proof.
  induction l as [ | m l IH ]; intros cs vs; simpl.
  - now rewrite !app_nil_r.
  - unfold push_both at 2. cbn [fst snd]. unfold push.
    rewrite IH, <- !app_assoc. reflexivity.
Qed.

Lemma reduce_push_both (g : JsValue -> completion TypeDef)
    (l : list JsValue) :
  forall rs cs vs,
    mapM g l = Normal rs ->
    reduce (fun acc m => r <- g m ;; Normal (push_both acc r)) l (cs, vs)
    = Normal ((cs ++ map caption rs)%list, (vs ++ map value rs)%list).
Proof.
  induction l as [ | m l IH ]; intros rs cs vs H; simpl in *.
  - injection H as <-. simpl. now rewrite !app_nil_r.
  - destruct (g m) as [ r | ]; simpl in *; try discriminate.
    destruct (mapM g l) as [ rs' | ]; simpl in *; try discriminate.
    injection H as <-.
    unfold push_both at 2. cbn [fst snd]. unfold push.
    rewrite (IH rs') by reflexivity.
    simpl. rewrite <- !app_assoc. reflexivity.
Qed.

Lemma generateType_union (type : JsValue) (ep : ExtractedProp)
    (members : list JsValue) (c v : string) :
  get_prop type "name" = Normal (JsString UNION) ->
  get_prop type "value" = Normal (JsArray members) ->
  Array_join " | " (map (fun m => caption (generateType m ep)) members)
  = Normal c ->
  Array_join " | " (map (fun m => value (generateType m ep)) members)
  = Normal v ->
  generateType type ep
  = mkTypeDef (JsString UNION) (JsString c) (JsString v) None.
Proof.
  intros Hn Hv Hc Hval. apply generateType_of_body.
  rewrite (body_UNION _ _ ep Hn). unfold generateUnion.
  rewrite Hv. cbn [bind].
  rewrite (fold_left_push_both (fun m => generateType m ep)).
  cbn [fst snd app]. rewrite Hc, Hval. reflexivity.
Qed.

Lemma generateType_enum (type : JsValue) (ep : ExtractedProp)
    (members : list JsValue) (rs : list TypeDef) (c v : string) :
  get_prop type "name" = Normal (JsString ENUM) ->
  get_prop type "value" = Normal (JsArray members) ->
  mapM generateEnumValue members = Normal rs ->
  Array_join " | " (map caption rs) = Normal c ->
  Array_join " | " (map value rs) = Normal v ->
  generateType type ep
  = mkTypeDef (JsString ENUM) (JsString c) (JsString v) None.
Proof.
  intros Hn Hv Hrs Hc Hval. apply generateType_of_body.
  rewrite (body_ENUM _ _ ep Hn). unfold generateEnum.
  rewrite Hv. cbn [bind].
  rewrite (reduce_push_both generateEnumValue members rs [] [] Hrs).
  cbn [bind fst snd app]. rewrite Hc, Hval. reflexivity.
Qed.

(** C9: for a Union or an Enum whose value is a sequence, the caption is
    the members' captions and the value the members' values, joined by
    [" | "] in the order of the members; reordering the members reorders
    the caption segments and the value segments in the same way. *)
Theorem generateUnion_Enum_join :
  (forall type ep members c v,
      get_prop type "name" = Normal (JsString UNION) ->
      get_prop type "value" = Normal (JsArray members) ->
      Array_join " | " (map (fun m => caption (generateType m ep)) members)
      = Normal c ->
      Array_join " | " (map (fun m => value (generateType m ep)) members)
      = Normal v ->
      generateType type ep
      = mkTypeDef (JsString UNION) (JsString c) (JsString v) None)
  /\ (forall type ep members rs c v,
         get_prop type "name" = Normal (JsString ENUM) ->
         get_prop type "value" = Normal (JsArray members) ->
         mapM generateEnumValue members = Normal rs ->
         Array_join " | " (map caption rs) = Normal c ->
         Array_join " | " (map value rs) = Normal v ->
         generateType type ep
         = mkTypeDef (JsString ENUM) (JsString c) (JsString v) None)
  /\ (forall sep segments,
         Array_join sep (map JsString segments)
         = Normal (String.concat sep segments))
  /\ (forall ep order members,
         map (fun m => caption (generateType m ep)) (reorder order members)
         = reorder order (map (fun m => caption (generateType m ep)) members)
         /\ map (fun m => value (generateType m ep)) (reorder order members)
            = reorder order (map (fun m => value (generateType m ep)) members))
  /\ (forall order members rs,
         mapM generateEnumValue members = Normal rs ->
         mapM generateEnumValue (reorder order members)
         = Normal (reorder order rs)
         /\ map caption (reorder order rs) = reorder order (map caption rs)
         /\ map value (reorder order rs) = reorder order (map value rs)).
Proof.
  split; [ exact generateType_union | ].
  split; [ exact generateType_enum | ].
  split; [ exact Array_join_strings | ].
  split.
  - intros ep order members. split; apply map_reorder.
  - intros order members rs H. split; [ | split ].
    + now apply mapM_reorder.
    + apply map_reorder.
    + apply map_reorder.
Qed.

End Joins.

(** ** Constructions without an explicit value *)

Section DefaultValue.

Context {RT : Runtime} {PT : PropTypesType} {IV : Inspector}.

Lemma generateType_instanceOf (type : JsValue) (ep : ExtractedProp)
    (v : JsValue) :
  get_prop type "name" = Normal (JsString INSTANCEOF) ->
  get_prop type "value" = Normal v ->
  generateType type ep = mkTypeDef (JsString INSTANCEOF) v v None.
Proof.
  intros Hn Hv. apply generateType_of_body.
  rewrite (body_INSTANCEOF _ _ ep Hn), Hv. reflexivity.
Qed.

Lemma renderType_no_title (ep : ExtractedProp) (node : ReactNode) :
  renderType ep = Normal node ->
  caption (generateType (docgenInfo_type ep) ep)
  = value (generateType (docgenInfo_type ep) ep) ->
  title_of node = JsUndefined.
Proof.
  unfold renderType. intros H Heq.
  destruct (get_prop (docgenInfo_type ep) "name") as [ kind | ];
    cbn [bind] in H; try discriminate.
  destruct (_ || _) in H.
  - injection H as <-. cbn [createPropText title_of title].
    now rewrite Heq, strict_eq_refl.
  - destruct (is_kind kind FUNC); injection H as <-; reflexivity.
Qed.

(** C10 (as amended): a construction that passes no value sets the value
    to the caption.  Caption and value are therefore equal for a Custom
    without raw text, a Func without documentation tags, the final return of
    ArrayOf, InstanceOf, an unrecognized kind and the fallback, and the
    entry point passes no title whenever they are equal.  The value is then
    whatever the caption is: a string when the caption is one. *)
Theorem createTypeDef_value_defaults :
  (forall n c it,
      value (createTypeDef n c JsUndefined it) = c
      /\ caption (createTypeDef n c JsUndefined it) = c)
  /\ (forall type ep raw,
         get_prop type "name" = Normal (JsString CUSTOM) ->
         get_prop type "raw" = Normal raw ->
         isNil raw = true ->
         generateType type ep
         = mkTypeDef (JsString CUSTOM) (JsString "custom")
                     (JsString "custom") None)
  /\ (forall type ep,
         get_prop type "name" = Normal (JsString FUNC) ->
         jsDocTags ep = None ->
         generateType type ep
         = mkTypeDef (JsString FUNC) (JsString "func") (JsString "func") None)
  /\ (forall type ep nested v,
         get_prop type "name" = Normal (JsString ARRAYOF) ->
         get_prop type "value" = Normal nested ->
         is_kind (name (generateType nested ep)) CUSTOM = false ->
         is_kind (name (generateType nested ep)) SHAPE = false ->
         ToString (value (generateType nested ep)) = Normal v ->
         generateType type ep
         = mkTypeDef (JsString ARRAYOF) (JsString (v ++ "[]"))
                     (JsString (v ++ "[]")) None)
  /\ (forall type ep v,
         get_prop type "name" = Normal (JsString INSTANCEOF) ->
         get_prop type "value" = Normal v ->
         generateType type ep = mkTypeDef (JsString INSTANCEOF) v v None)
  /\ (forall type ep kind,
         get_prop type "name" = Normal kind ->
         recognized kind = false ->
         generateType type ep = mkTypeDef kind kind kind None)
  /\ value unknown = caption unknown
  /\ (forall ep node,
         renderType ep = Normal node ->
         caption (generateType (docgenInfo_type ep) ep)
         = value (generateType (docgenInfo_type ep) ep) ->
         title_of node = JsUndefined).
Proof.
  split; [ intros; split; reflexivity | ].
  split; [ exact generateType_custom_no_raw | ].
  split.
  { intros type ep Hn Ht. rewrite (generateType_func _ _ Hn).
    unfold func_value. now rewrite Ht. }
  split; [ exact array_generic | ].
  split; [ exact generateType_instanceOf | ].
  split.
  { intros type ep kind Hn Hk.
    now rewrite (generateType_unrecognized _ ep _ Hn Hk). }
  split; [ reflexivity | exact renderType_no_title ].
Qed.

End DefaultValue.

(** ** The formatter on concrete descriptors *)

Module Runs.

Import Example.

Lemma NoDup_a_b : NoDup ["a"; "b"].
Proof. repeat constructor; simpl; intuition discriminate. Defined.

(** C1, refuted as stated: a descriptor of unrecognized kind is not
    formatted as the fallback, and neither is an ObjectOf whose value is
    missing or an ArrayOf over a Custom on which the classifier throws. *)
Lemma generateType_not_always_fallback :
  generateType (scalar "string") (undocumented (scalar "string"))
  = mkTypeDef (JsString "string") (JsString "string") (JsString "string") None
  /\ generateType (scalar "string") (undocumented (scalar "string"))
     <> unknown
  /\ generateType (scalar "objectOf") (undocumented (scalar "objectOf"))
     = mkTypeDef (JsString "objectOf") (JsString "objectOf(unknown)")
                 (JsString "objectOf(unknown)") None
  /\ inspectValue (JsString "@") = Throw (Thrown "SyntaxError")
  /\ generateType
       (descriptor "arrayOf" (descriptor "custom" JsUndefined (JsString "@"))
                   JsUndefined)
       (undocumented JsUndefined)
     = mkTypeDef (JsString "arrayOf") (JsString "unknown[]")
                 (JsString "unknown[]") None.
Proof.
  repeat split; try (vm_compute; reflexivity).
  vm_compute. discriminate.
Qed.

Lemma generateType_never_raises_witness :
  generateType (scalar "shape") (undocumented JsUndefined) = unknown
  /\ generateType (descriptor "custom" JsUndefined (JsString "@"))
                  (undocumented JsUndefined) = unknown
  /\ generateType (scalar "number") (undocumented JsUndefined)
     = mkTypeDef (JsString "number") (JsString "number") (JsString "number")
                 None.
Proof.
  destruct (@generateType_never_raises runtime docgen_kinds classifier)
    as (_ & _ & _ & Hshape & Hcustom & Hother).
  split; [ | split ].
  - apply (Hshape _ _ JsUndefined); reflexivity.
  - apply (Hcustom _ _ (JsString "@") (Thrown "SyntaxError")); reflexivity.
  - apply Hother; [ reflexivity | ].
    simpl. intuition discriminate.
Defined.

Lemma NoDup_b_1 : NoDup ["b"; "1"].
Proof. repeat constructor; simpl; intuition discriminate. Defined.

(** C2, refuted as stated: the fields of [shape({ b: string, 1: number })]
    are not rendered in the order of their declaration. *)
Lemma generateShape_not_in_declaration_order :
  get_prop shape_b_1 "value"
  = Normal (JsObject [("b", scalar "string"); ("1", scalar "number")])
  /\ value (generateType shape_b_1 (undocumented shape_b_1))
     = JsString "{ 1: number, b: string }"
  /\ value (generateType shape_b_1 (undocumented shape_b_1))
     <> JsString "{ b: string, 1: number }".
Proof.
  split; [ reflexivity | ]. split; [ vm_compute; reflexivity | ].
  vm_compute. discriminate.
Qed.

Lemma generateShape_caption_value_witness :
  value (generateType shape_b_1 (undocumented shape_b_1))
  = JsString "{ 1: number, b: string }"
  /\ caption (generateType shape_b_1 (undocumented shape_b_1))
     = JsString "{ 1: number, b: string }"
  /\ value (generateType shape_a_b (undocumented shape_a_b))
     = JsString "{ a: string, b: number }"
  /\ enumeration_order [("a", scalar "string"); ("b", scalar "number")]
     = [("a", scalar "string"); ("b", scalar "number")].
Proof.
  destruct (@generateShape_caption_value runtime docgen_kinds classifier
              shape_b_1 (undocumented shape_b_1)
              [("b", scalar "string"); ("1", scalar "number")]
              ["1: number"; "b: string"]
              eq_refl eq_refl NoDup_b_1 eq_refl)
    as (_ & Hvalue & Hcaption & _ & _).
  destruct (@generateShape_caption_value runtime docgen_kinds classifier
              shape_a_b (undocumented shape_a_b)
              [("a", scalar "string"); ("b", scalar "number")]
              ["a: string"; "b: number"]
              eq_refl eq_refl NoDup_a_b eq_refl)
    as (_ & Hvalue' & _ & _ & Horder).
  split; [ exact Hvalue | ].
  split; [ apply Hcaption; apply Nat.leb_le; reflexivity | ].
  split; [ exact Hvalue' | ].
  apply Horder. intros field [ <- | [ <- | [] ] ]; reflexivity.
Defined.

Lemma generateArray_of_shape_witness :
  exists shapeValue shapeCaption,
    value (generateType shape_a_b (undocumented JsUndefined))
    = JsString shapeValue
    /\ caption (generateType shape_a_b (undocumented JsUndefined))
       = JsString shapeCaption
    /\ value (generateType (descriptor "arrayOf" shape_a_b JsUndefined)
                           (undocumented JsUndefined))
       = JsString ("[" ++ shapeValue ++ "]")
    /\ strip_brackets ("[" ++ shapeValue ++ "]") = Some shapeValue
    /\ (String.length shapeValue <= 35 ->
        caption (generateType (descriptor "arrayOf" shape_a_b JsUndefined)
                              (undocumented JsUndefined))
        = JsString ("[" ++ shapeValue ++ "]"))
    /\ (35 < String.length shapeValue ->
        caption (generateType (descriptor "arrayOf" shape_a_b JsUndefined)
                              (undocumented JsUndefined))
        = JsString (shapeCaption ++ "[]")).
Proof.
  exact (generateArray_of_shape
           (descriptor "arrayOf" shape_a_b JsUndefined)
           (undocumented JsUndefined) shape_a_b
           [("a", scalar "string"); ("b", scalar "number")]
           ["a: string"; "b: number"]
           eq_refl eq_refl eq_refl eq_refl NoDup_a_b eq_refl).
Defined.

Lemma generateObjectOf_wraps_witness :
  generateType
    (descriptor "objectOf"
       (descriptor "custom" JsUndefined (JsString "PropTypes.string"))
       JsUndefined)
    (undocumented JsUndefined)
  = mkTypeDef (JsString "objectOf") (JsString "objectOf(PropTypes.string)")
              (JsString "objectOf(PropTypes.string)") None
  /\ generateType (descriptor "objectOf" arrow JsUndefined)
                  (undocumented JsUndefined)
     = mkTypeDef (JsString "objectOf") (JsString "objectOf(function)")
                 (JsString "objectOf(() => {})") None
  /\ generateType (descriptor "objectOf" shape_a_b JsUndefined)
                  (undocumented JsUndefined)
     = mkTypeDef (JsString "objectOf")
                 (JsString "objectOf({ a: string, b: number })")
                 (JsString "objectOf({ a: string, b: number })") None
  /\ generateType (descriptor "objectOf" (scalar "number") JsUndefined)
                  (undocumented JsUndefined)
     = mkTypeDef (JsString "objectOf") (JsString "objectOf(number)")
                 (JsString "objectOf(number)") None.
Proof.
  destruct (@generateObjectOf_wraps runtime docgen_kinds classifier)
    as (Hplain & Hcustom & Hshape & Hexample).
  split; [ | split; [ | split ] ].
  - apply (Hexample _ _ (descriptor "custom" JsUndefined
                                    (JsString "PropTypes.string")));
      reflexivity.
  - apply (Hcustom _ _ arrow KFunction "() => {}");
      try reflexivity; discriminate.
  - apply (Hshape _ _ shape_a_b "{ a: string, b: number }");
      try reflexivity.
    vm_compute. repeat constructor.
  - apply (Hplain _ _ (scalar "number") "number" "number");
      try reflexivity; vm_compute; discriminate.
Defined.

Lemma generateArray_custom_other_kind_witness :
  generateType (descriptor "arrayOf" arrow JsUndefined)
               (undocumented JsUndefined)
  = mkTypeDef (JsString "arrayOf") (JsString "() => {}[]")
              (JsString "() => {}[]") None
  /\ inferedType (generateType arrow (undocumented JsUndefined))
     = Some KFunction
  /\ @toString classifier KFunction = "function"
  /\ caption (generateType (descriptor "arrayOf" arrow JsUndefined)
                           (undocumented JsUndefined))
     <> JsString (@toString classifier KFunction).
Proof.
  split; [ | split; [ | split ] ].
  - apply (@generateArray_custom_other_kind runtime docgen_kinds classifier
             (descriptor "arrayOf" arrow JsUndefined)
             (undocumented JsUndefined) arrow "() => {}" KFunction);
      try reflexivity; discriminate.
  - reflexivity.
  - reflexivity.
  - vm_compute. discriminate.
Defined.

Lemma generateFunc_signature_witness :
  caption (generateType (scalar "func") x_number_y_string) = JsString "func"
  /\ value (generateType (scalar "func") x_number_y_string)
     = JsString "(x: number, y) => string"
  /\ value (generateType (scalar "func") (undocumented (scalar "func")))
     = caption (generateType (scalar "func") (undocumented (scalar "func"))).
Proof.
  destruct (@generateFunc_signature runtime docgen_kinds classifier)
    as (Hcaption & Hvalue & Hplain & _ & _ & _).
  split; [ | split ].
  - apply Hcaption. reflexivity.
  - apply (Hvalue (scalar "func") x_number_y_string
                  {| params :=
                       Some [ {| getPrettyName := "x";
                                 getTypeName := Some "number" |};
                              {| getPrettyName := "y";
                                 getTypeName := None |} ];
                     returns := Some {| returns_getTypeName := "string" |} |}).
    + reflexivity.
    + reflexivity.
    + left. discriminate.
  - apply Hplain; [ reflexivity | left; reflexivity ].
Defined.

Lemma renderType_output_witness :
  (exists detail,
      renderType (undocumented shape_a_b)
      = Normal (createPropText
                  (caption (generateType shape_a_b (undocumented shape_a_b)))
                  (Some {| title := detail |}))
      /\ (caption (generateType shape_a_b (undocumented shape_a_b))
          <> value (generateType shape_a_b (undocumented shape_a_b)) ->
          detail = value (generateType shape_a_b (undocumented shape_a_b)))
      /\ (caption (generateType shape_a_b (undocumented shape_a_b))
          = value (generateType shape_a_b (undocumented shape_a_b)) ->
          detail = JsUndefined))
  /\ renderType x_number_y_string
     = Normal (createPropText
                 (value (generateType (scalar "func") x_number_y_string))
                 None)
  /\ renderType (undocumented (scalar "string")) = Normal RenderNull.
Proof.
  destruct (@renderType_output runtime docgen_kinds classifier)
    as (Hcaptioned & Hfunc & Hother).
  split; [ | split ].
  - apply (Hcaptioned (undocumented shape_a_b) "shape"); [ reflexivity | ].
    simpl. tauto.
  - apply (Hfunc x_number_y_string). reflexivity.
  - apply (Hother (undocumented (scalar "string")) (JsString "string"));
      reflexivity.
Defined.

Lemma generateUnion_Enum_join_witness :
  generateType
    (descriptor "union" (JsArray [scalar "string"; scalar "number"])
                JsUndefined)
    (undocumented JsUndefined)
  = mkTypeDef (JsString "union") (JsString "string | number")
              (JsString "string | number") None
  /\ generateType
       (descriptor "enum" (JsArray [enum_member "'a'"; enum_member "'b'"])
                   JsUndefined)
       (undocumented JsUndefined)
     = mkTypeDef (JsString "enum") (JsString "'a' | 'b'")
                 (JsString "'a' | 'b'") None
  /\ mapM generateEnumValue
          (reorder [1; 0] [enum_member "'a'"; enum_member "'b'"])
     = Normal (reorder [1; 0]
                 [ mkTypeDef (JsString "enumvalue") (JsString "'a'")
                             (JsString "'a'") None;
                   mkTypeDef (JsString "enumvalue") (JsString "'b'")
                             (JsString "'b'") None ]).
Proof.
  destruct (@generateUnion_Enum_join runtime docgen_kinds classifier)
    as (Hunion & Henum & _ & _ & Hreorder).
  split; [ | split ].
  - apply (Hunion _ _ [scalar "string"; scalar "number"]); reflexivity.
  - apply (Henum _ _ [enum_member "'a'"; enum_member "'b'"]
                 [ mkTypeDef (JsString "enumvalue") (JsString "'a'")
                             (JsString "'a'") None;
                   mkTypeDef (JsString "enumvalue") (JsString "'b'")
                             (JsString "'b'") None ]);
      reflexivity.
  - apply (Hreorder [1; 0] [enum_member "'a'"; enum_member "'b'"]).
    reflexivity.
Defined.

(** C10, refuted as stated: an InstanceOf without a value has no string
    as value, and caption and value also coincide where a value was passed
    explicitly, as for a short Shape. *)
Lemma value_not_always_string :
  generateType (scalar "instanceOf") (undocumented JsUndefined)
  = mkTypeDef (JsString "instanceOf") JsUndefined JsUndefined None
  /\ generateShape (fun v => generateType v (undocumented JsUndefined))
                   shape_a_b
     = Normal (createTypeDef (JsString "shape")
                             (JsString "{ a: string, b: number }")
                             (JsString "{ a: string, b: number }") None)
  /\ caption (generateType shape_a_b (undocumented JsUndefined))
     = value (generateType shape_a_b (undocumented JsUndefined)).
Proof. repeat split; vm_compute; reflexivity. Qed.

Lemma createTypeDef_value_defaults_witness :
  generateType (descriptor "instanceOf" (JsString "Date") JsUndefined)
               (undocumented JsUndefined)
  = mkTypeDef (JsString "instanceOf") (JsString "Date") (JsString "Date") None
  /\ generateType (scalar "custom") (undocumented JsUndefined)
     = mkTypeDef (JsString "custom") (JsString "custom") (JsString "custom")
                 None
  /\ generateType (scalar "func") (undocumented JsUndefined)
     = mkTypeDef (JsString "func") (JsString "func") (JsString "func") None
  /\ generateType (descriptor "arrayOf" (scalar "number") JsUndefined)
                  (undocumented JsUndefined)
     = mkTypeDef (JsString "arrayOf") (JsString "number[]")
                 (JsString "number[]") None
  /\ title_of (PropText (JsString "Date")
                        (Some {| title := JsUndefined |})) = JsUndefined.
Proof.
  destruct (@createTypeDef_value_defaults runtime docgen_kinds classifier)
    as (_ & Hcustom & Hfunc & Hgeneric & Hinstance & _ & _ & Htitle).
  split; [ | split; [ | split; [ | split ] ] ].
  - apply Hinstance; reflexivity.
  - apply (Hcustom _ _ JsUndefined); reflexivity.
  - apply Hfunc; reflexivity.
  - apply (Hgeneric _ _ (scalar "number") "number"); reflexivity.
  - apply (Htitle (undocumented
                     (descriptor "instanceOf" (JsString "Date") JsUndefined)));
      reflexivity.
Defined.

End Runs.

(** ** Further properties of the formatter *)

(** Splits a hypothesis [c = Normal r] along the binds and tests of [c]. *)
Ltac invert_normal H :=
  repeat match type of H with
         | bind ?c _ = Normal _ =>
             destruct c eqn:?; cbn [bind] in H; try discriminate H
         | (if ?b then _ else _) = Normal _ => destruct b eqn:?
         | match ?x with _ => _ end = Normal _ =>
             destruct x eqn:?; try discriminate H
         end;
  try (injection H as <-).

Section Names.

Context {RT : Runtime} {PT : PropTypesType} {IV : Inspector}.

Variable self : JsValue -> TypeDef.

Lemma generateCustom_name (type : JsValue) (r : TypeDef) :
  generateCustom type = Normal r -> name r = JsString CUSTOM.
Proof. unfold generateCustom. intros H. invert_normal H; reflexivity. Qed.

Lemma generateFunc_name (ep : ExtractedProp) (r : TypeDef) :
  generateFunc ep = Normal r -> name r = JsString FUNC.
Proof.
  unfold generateFunc. intros H. cbv zeta in H.
  invert_normal H; reflexivity.
Qed.

Lemma generateShape_name (type : JsValue) (r : TypeDef) :
  generateShape self type = Normal r -> name r = JsString SHAPE.
Proof. unfold generateShape. intros H. invert_normal H; reflexivity. Qed.

Lemma generateObjectOf_name (type : JsValue) (r : TypeDef) :
  generateObjectOf self type = Normal r -> name r = JsString OBJECTOF.
Proof.
  unfold generateObjectOf. intros H. cbv zeta in H.
  invert_normal H; reflexivity.
Qed.

Lemma generateUnion_name (type : JsValue) (r : TypeDef) :
  generateUnion self type = Normal r -> name r = JsString UNION.
Proof.
  unfold generateUnion. intros H. cbv zeta in H.
  invert_normal H; reflexivity.
Qed.

Lemma generateEnum_name (type : JsValue) (r : TypeDef) :
  generateEnum type = Normal r -> name r = JsString ENUM.
Proof.
  unfold generateEnum. intros H. invert_normal H; reflexivity.
Qed.

Lemma generateArray_name (type : JsValue) (r : TypeDef) :
  generateArray self type = Normal r -> name r = JsString ARRAYOF.
Proof.
  unfold generateArray, braceAfter, braceAround. intros H. cbv zeta in H.
  invert_normal H; reflexivity.
Qed.

(** Whatever the dispatch returns carries the tag it dispatched on. *)
Lemma generateType_body_name (type : JsValue) (ep : ExtractedProp)
    (r : TypeDef) :
  generateType_body self type ep = Normal r ->
  get_prop type "name" = Normal (name r).
Proof.
  unfold generateType_body. intros H.
  destruct (get_prop type "name") as [ kind | ]; cbn [bind] in H;
    [ | discriminate ].
  f_equal.
  destruct kind as [ | | b | k | elems | ps ];
    try (cbn [is_kind] in H; injection H as <-; reflexivity).
  cbn [is_kind] in H.
  destruct (String.eqb k CUSTOM) eqn:E;
    [ apply String.eqb_eq in E; rewrite E; symmetry; eapply generateCustom_name; eassumption | clear E ].
  destruct (String.eqb k FUNC) eqn:E;
    [ apply String.eqb_eq in E; rewrite E; symmetry; eapply generateFunc_name; eassumption | clear E ].
  destruct (String.eqb k SHAPE) eqn:E;
    [ apply String.eqb_eq in E; rewrite E; symmetry; eapply generateShape_name; eassumption | clear E ].
  destruct (String.eqb k INSTANCEOF) eqn:E;
    [ apply String.eqb_eq in E; rewrite E; invert_normal H; reflexivity | clear E ].
  destruct (String.eqb k OBJECTOF) eqn:E;
    [ apply String.eqb_eq in E; rewrite E; symmetry; eapply generateObjectOf_name; eassumption | clear E ].
  destruct (String.eqb k UNION) eqn:E;
    [ apply String.eqb_eq in E; rewrite E; symmetry; eapply generateUnion_name; eassumption | clear E ].
  destruct (String.eqb k ENUM) eqn:E;
    [ apply String.eqb_eq in E; rewrite E; symmetry; eapply generateEnum_name; eassumption | clear E ].
  destruct (String.eqb k ARRAYOF) eqn:E;
    [ apply String.eqb_eq in E; rewrite E; symmetry; eapply generateArray_name; eassumption | clear E ].
  injection H as <-. reflexivity.
Qed.

End Names.

Section Invariants.

Context {RT : Runtime} {PT : PropTypesType} {IV : Inspector}.

(** X1: the result of [generateType] is the fallback or carries the kind
    tag read from the descriptor as its name. *)
Theorem generateType_keeps_name (type : JsValue) (ep : ExtractedProp) :
  generateType type ep = unknown
  \/ get_prop type "name" = Normal (name (generateType type ep)).
Proof.
  rewrite generateType_unfold.
  destruct (generateType_body (fun v => generateType v ep) type ep)
    as [ r | e ] eqn:H; cbn [try_catch].
  - right. eapply generateType_body_name. exact H.
  - left. reflexivity.
Qed.

Lemma generateFunc_tags (ep1 ep2 : ExtractedProp) :
  jsDocTags ep1 = jsDocTags ep2 -> generateFunc ep1 = generateFunc ep2.
Proof.
  intros H. unfold generateFunc, generateFuncSignature. now rewrite H.
Qed.

Lemma generateType_rec_tags (ep1 ep2 : ExtractedProp) :
  jsDocTags ep1 = jsDocTags ep2 ->
  forall fuel type,
    generateType_rec fuel ep1 type = generateType_rec fuel ep2 type.
Proof.
  intros H. induction fuel as [ | fuel IH ]; intros type; [ reflexivity | ].
  cbn [generateType_rec]. f_equal.
  rewrite (generateType_body_ext _ (generateType_rec fuel ep2) type ep1)
    by (intros v _; apply IH).
  unfold generateType_body. now rewrite (generateFunc_tags ep1 ep2 H).
Qed.

(** X2: of the extracted property, formatting only reads the
    documentation tags: two properties with the same tags format every
    descriptor alike, whatever their own [docgenInfo]. *)
Theorem generateType_reads_only_tags (type : JsValue)
    (ep1 ep2 : ExtractedProp) :
  jsDocTags ep1 = jsDocTags ep2 ->
  generateType type ep1 = generateType type ep2.
Proof.
  intros H. unfold generateType. now apply generateType_rec_tags.
Qed.

(** X3: unlike [generateType], [renderType] reads the kind outside any
    [try]: it throws exactly when the descriptor is nil. *)
Theorem renderType_raises_on_nil (ep : ExtractedProp) :
  (isNil (docgenInfo_type ep) = true -> exists e, renderType ep = Throw e)
  /\ (isNil (docgenInfo_type ep) = false ->
      exists node, renderType ep = Normal node).
Proof.
  unfold renderType. split; intros Hnil.
  - destruct (docgenInfo_type ep); try discriminate; cbn; eauto.
  - destruct (get_prop (docgenInfo_type ep) "name") as [ kind | e ] eqn:Hk.
    + cbn [bind].
      destruct (_ || _); [ eauto | ].
      destruct (is_kind kind FUNC); eauto.
    + destruct (docgenInfo_type ep); discriminate.
Qed.

(** X4: a Union or an Enum whose value is no sequence shows that value
    verbatim, as caption and as value; the value is not converted. *)
Theorem generateUnion_Enum_not_a_sequence (type : JsValue)
    (ep : ExtractedProp) (v : JsValue) :
  get_prop type "value" = Normal v ->
  (forall members, v <> JsArray members) ->
  (get_prop type "name" = Normal (JsString UNION) ->
   generateType type ep = mkTypeDef (JsString UNION) v v None)
  /\ (get_prop type "name" = Normal (JsString ENUM) ->
      generateType type ep = mkTypeDef (JsString ENUM) v v None).
Proof.
  intros Hv Hseq. split; intros Hn; apply generateType_of_body.
  - rewrite (body_UNION _ _ ep Hn). unfold generateUnion. rewrite Hv.
    cbn [bind].
    destruct v; try reflexivity. exfalso. eapply Hseq. reflexivity.
  - rewrite (body_ENUM _ _ ep Hn). unfold generateEnum. rewrite Hv.
    cbn [bind].
    destruct v; try reflexivity. exfalso. eapply Hseq. reflexivity.
Qed.

(** X5: a fault of a nested descriptor stops at the nested call: ObjectOf
    and ArrayOf over a descriptor that formats as the fallback wrap the
    fallback text. *)
Theorem nested_fault_is_contained (type : JsValue) (ep : ExtractedProp)
    (nested : JsValue) :
  ~ In "unknown" kinds ->
  get_prop type "value" = Normal nested ->
  generateType nested ep = unknown ->
  (get_prop type "name" = Normal (JsString OBJECTOF) ->
   generateType type ep
   = mkTypeDef (JsString OBJECTOF) (JsString "objectOf(unknown)")
               (JsString "objectOf(unknown)") None)
  /\ (get_prop type "name" = Normal (JsString ARRAYOF) ->
      generateType type ep
      = mkTypeDef (JsString ARRAYOF) (JsString "unknown[]")
                  (JsString "unknown[]") None).
Proof.
  intros Hk Hv Hf.
  assert (Hc : is_kind (JsString "unknown") CUSTOM = false)
    by (apply (is_kind_unrecognized "unknown" 0 Hk); lia).
  assert (Hs : is_kind (JsString "unknown") SHAPE = false)
    by (apply (is_kind_unrecognized "unknown" 2 Hk); lia).
  split; intros Hn.
  - apply (generateType_objectOf _ _ nested); auto.
    unfold generateObjectOf. rewrite Hv. cbn [bind]. rewrite Hf.
    cbn [name unknown createTypeDef]. rewrite Hc, Hs. reflexivity.
  - apply (array_generic type ep nested "unknown"); auto;
      rewrite Hf; auto.
Qed.

(** X6: empty collections.  A Shape over an empty mapping shows two
    spaces between its braces; a Union or an Enum over an empty sequence has
    the empty string as caption and value. *)
Theorem empty_collections (type : JsValue) (ep : ExtractedProp) :
  (get_prop type "name" = Normal (JsString SHAPE) ->
   get_prop type "value" = Normal (JsObject []) ->
   generateType type ep
   = mkTypeDef (JsString SHAPE) (JsString "{  }") (JsString "{  }") None)
  /\ (get_prop type "name" = Normal (JsString UNION) ->
      get_prop type "value" = Normal (JsArray []) ->
      generateType type ep
      = mkTypeDef (JsString UNION) (JsString "") (JsString "") None)
  /\ (get_prop type "name" = Normal (JsString ENUM) ->
      get_prop type "value" = Normal (JsArray []) ->
      generateType type ep
      = mkTypeDef (JsString ENUM) (JsString "") (JsString "") None).
Proof.
  split; [ | split ]; intros Hn Hv.
  - apply (generateType_shape type ep [] [] Hn Hv); [ constructor | ].
    reflexivity.
  - apply (generateType_union type ep [] "" "" Hn Hv); reflexivity.
  - apply (generateType_enum type ep [] [] "" "" Hn Hv); reflexivity.
Qed.

End Invariants.

Section Elision.

Context {RT : Runtime} {PT : PropTypesType} {IV : Inspector}.

(** X7: a Custom with raw text shows that text, stripped of its PropTypes
    qualifiers only when the classifier infers an Object; the inferred kind
    is kept; the caption is the shown text when it has at most 35
    characters and ["custom"] otherwise, so it never exceeds 35
    characters. *)
Theorem generateCustom_raw_text (type : JsValue) (ep : ExtractedProp)
    (raw : string) (it : InspectionType) :
  get_prop type "name" = Normal (JsString CUSTOM) ->
  get_prop type "raw" = Normal (JsString raw) ->
  inspectValue (JsString raw) = Normal it ->
  inferedType (generateType type ep) = Some it
  /\ (it = OBJECT ->
      value (generateType type ep) = JsString (shortifyPropTypes_string raw))
  /\ (it <> OBJECT -> value (generateType type ep) = JsString raw)
  /\ (caption (generateType type ep) = value (generateType type ep)
      \/ caption (generateType type ep) = JsString "custom")
  /\ exists c, caption (generateType type ep) = JsString c
               /\ String.length c <= MAX_CAPTION_LENGTH.
Proof.
  intros Hn Hr Hi. rewrite (generateType_custom type ep raw it Hn Hr Hi).
  cbn [inferedType value caption]. unfold custom_text.
  split; [ reflexivity | ].
  split; [ intros ->; now rewrite InspectionType_eqb_refl | ].
  split; [ intros Hne; now rewrite (InspectionType_eqb_neq _ _ Hne) | ].
  destruct (Nat.leb _ MAX_CAPTION_LENGTH) eqn:E.
  - split; [ left; reflexivity | ].
    eexists. split; [ reflexivity | ]. now apply Nat.leb_le.
  - split; [ right; reflexivity | ].
    eexists. split; [ reflexivity | ]. cbn. unfold MAX_CAPTION_LENGTH. lia.
Qed.

(** X8: the caption of a Shape never exceeds 35 characters. *)
Theorem generateShape_caption_bounded (type : JsValue) (ep : ExtractedProp)
    (fields : list (string * JsValue)) (rendered : list string) :
  get_prop type "name" = Normal (JsString SHAPE) ->
  get_prop type "value" = Normal (JsObject fields) ->
  NoDup (map fst fields) ->
  mapM (field_text ep) fields = Normal rendered ->
  exists c, caption (generateType type ep) = JsString c
            /\ String.length c <= MAX_CAPTION_LENGTH.
Proof.
  intros Hn Hv Hnd Hr.
  destruct (generateType_shape_any_order type ep fields rendered
              Hn Hv Hnd Hr) as [ enumerated -> ].
  cbn [caption]. eexists. split; [ reflexivity | ].
  destruct (Nat.leb _ MAX_CAPTION_LENGTH) eqn:E.
  - now apply Nat.leb_le.
  - cbn. unfold MAX_CAPTION_LENGTH. lia.
Qed.

(** X9: ArrayOf over a Custom whose raw text is classified as an Object
    brackets the stripped text as value; the caption is the bracketed text
    when the text has at most 35 characters and the display name of the
    Object kind followed by ["[]"] otherwise. *)
Theorem generateArray_custom_object (type : JsValue) (ep : ExtractedProp)
    (nested : JsValue) (raw : string) :
  get_prop type "name" = Normal (JsString ARRAYOF) ->
  get_prop type "value" = Normal nested ->
  get_prop nested "name" = Normal (JsString CUSTOM) ->
  get_prop nested "raw" = Normal (JsString raw) ->
  inspectValue (JsString raw) = Normal OBJECT ->
  value (generateType type ep)
  = JsString ("[" ++ shortifyPropTypes_string raw ++ "]")
  /\ (String.length (shortifyPropTypes_string raw) <= 35 ->
      caption (generateType type ep)
      = JsString ("[" ++ shortifyPropTypes_string raw ++ "]"))
  /\ (35 < String.length (shortifyPropTypes_string raw) ->
      caption (generateType type ep) = JsString (toString OBJECT ++ "[]")).
Proof.
  intros Hn Hv Hcn Hcr Hi.
  pose proof (generateType_custom nested ep raw OBJECT Hcn Hcr Hi) as Hc.
  unfold custom_text in Hc. rewrite InspectionType_eqb_refl in Hc.
  set (text := shortifyPropTypes_string raw) in *.
  rewrite (generateType_array type ep nested
             (mkTypeDef (JsString ARRAYOF)
                (JsString (if Nat.leb (String.length text) MAX_CAPTION_LENGTH
                           then "[" ++ text ++ "]"
                           else toString OBJECT ++ "[]"))
                (JsString ("[" ++ text ++ "]")) None) Hn Hv).
  - cbn [value caption]. unfold MAX_CAPTION_LENGTH.
    split; [ reflexivity | ]. split.
    + intros Hle. apply Nat.leb_le in Hle. now rewrite Hle.
    + intros Hgt. apply Nat.leb_gt in Hgt. now rewrite Hgt.
  - unfold generateArray. rewrite Hv. cbn [bind]. rewrite Hc.
    cbn [name value caption inferedType].
    kind_tests 0.
    rewrite InspectionType_eqb_refl, andb_false_r.
    cbn [length_le bind braceAround braceAfter ToString].
    destruct (Nat.leb (String.length text) MAX_CAPTION_LENGTH); reflexivity.
Qed.

End Elision.

Section Members.

Context {RT : Runtime} {PT : PropTypesType} {IV : Inspector}.

Lemma generateEnumValue_formats (member : JsValue) (c v : string) :
  enum_member_formats member c v ->
  exists r, generateEnumValue member = Normal r
            /\ caption r = JsString c /\ value r = JsString v.
Proof.
  intros (t & computed & Hv & Hc & H). unfold generateEnumValue.
  rewrite Hv, Hc. cbn [bind].
  destruct H as [ (Hb & -> & ->) | (Hb & it & Hi & -> & ->) ]; rewrite Hb.
  - eexists. split; [ reflexivity | ]. split; reflexivity.
  - unfold generateComputedValue, custom_text. rewrite Hi. cbn [bind].
    destruct (InspectionType_eqb it OBJECT);
      eexists; (split; [ reflexivity | ]); split; reflexivity.
Qed.

Lemma mapM_generateEnumValue (members : list JsValue)
    (segments : list (string * string)) :
  Forall2 (fun m s => enum_member_formats m (fst s) (snd s))
          members segments ->
  exists rs, mapM generateEnumValue members = Normal rs
             /\ map caption rs = map JsString (map fst segments)
             /\ map value rs = map JsString (map snd segments).
Proof.
  induction 1 as [ | m s members segments Hm _ IH ].
  - exists []. repeat split.
  - destruct (generateEnumValue_formats m _ _ Hm) as (r & Hr & Hc & Hv).
    destruct IH as (rs & Hrs & Hcs & Hvs).
    exists (r :: rs). cbn [mapM map]. rewrite Hr, Hrs. cbn [bind].
    rewrite Hc, Hv, Hcs, Hvs. repeat split.
Qed.

(** X10: an Enum over members with text, each literal or computed and
    accepted by the classifier, joins the members with [" | "]: a literal
    member contributes its text to caption and value, a computed member the
    display name of its inferred kind to the caption and its text, stripped
    when the kind is Object, to the value. *)
Theorem generateEnum_members (type : JsValue) (ep : ExtractedProp)
    (members : list JsValue) (segments : list (string * string)) :
  get_prop type "name" = Normal (JsString ENUM) ->
  get_prop type "value" = Normal (JsArray members) ->
  Forall2 (fun m s => enum_member_formats m (fst s) (snd s))
          members segments ->
  generateType type ep
  = mkTypeDef (JsString ENUM)
              (JsString (String.concat " | " (map fst segments)))
              (JsString (String.concat " | " (map snd segments))) None.
Proof.
  intros Hn Hv Hm.
  destruct (mapM_generateEnumValue members segments Hm)
    as (rs & Hrs & Hcs & Hvs).
  apply (generateType_enum type ep members rs _ _ Hn Hv Hrs).
  - rewrite Hcs. apply Array_join_strings.
  - rewrite Hvs. apply Array_join_strings.
Qed.

Lemma reduce_throws {A B : Type} (f : B -> A -> completion B) (x : A)
    (l : list A) :
  In x l ->
  (forall acc, exists e, f acc x = Throw e) ->
  forall acc, exists e, reduce f l acc = Throw e.
Proof.
  intros Hin Hx. induction l as [ | y l IH ]; [ contradiction | ].
  intros acc. cbn [reduce].
  destruct Hin as [ -> | Hin ].
  - destruct (Hx acc) as [ e He ]. rewrite He. cbn. eauto.
  - destruct (f acc y) as [ acc' | e ]; cbn [bind]; eauto.
Qed.

(** X11: one member on which the classifier throws turns the whole Enum
    into the fallback: the members of an Enum are formatted inside the
    [try] of the Enum itself. *)
Theorem generateEnum_member_fault (type : JsValue) (ep : ExtractedProp)
    (members : list JsValue) (member text computed : JsValue)
    (e : JsError) :
  get_prop type "name" = Normal (JsString ENUM) ->
  get_prop type "value" = Normal (JsArray members) ->
  In member members ->
  get_prop member "value" = Normal text ->
  get_prop member "computed" = Normal computed ->
  ToBoolean computed = true ->
  inspectValue text = Throw e ->
  generateType type ep = unknown.
Proof.
  intros Hn Hv Hin Ht Hc Hb He.
  rewrite generateType_unfold, (body_ENUM _ _ ep Hn).
  unfold generateEnum. rewrite Hv. cbn [bind].
  destruct (reduce_throws
              (fun acc m => r <- generateEnumValue m ;;
                            Normal (push_both acc r))
              member members Hin) with (acc := ([] : list JsValue,
                                               [] : list JsValue))
    as [ e' He' ].
  - intros acc. exists e. unfold generateEnumValue, generateComputedValue.
    rewrite Ht, Hc. cbn [bind]. rewrite Hb, He. reflexivity.
  - rewrite He'. reflexivity.
Qed.

(** X12: a Union whose members all format with strings as caption and
    value never faults in the join: its caption and value are the members'
    captions and values separated by [" | "]. *)
Theorem generateUnion_of_strings (type : JsValue) (ep : ExtractedProp)
    (members : list JsValue) (segments : list (string * string)) :
  get_prop type "name" = Normal (JsString UNION) ->
  get_prop type "value" = Normal (JsArray members) ->
  Forall2 (fun m s => caption (generateType m ep) = JsString (fst s)
                      /\ value (generateType m ep) = JsString (snd s))
          members segments ->
  generateType type ep
  = mkTypeDef (JsString UNION)
              (JsString (String.concat " | " (map fst segments)))
              (JsString (String.concat " | " (map snd segments))) None.
Proof.
  intros Hn Hv Hm.
  assert (Hcs : map (fun m => caption (generateType m ep)) members
                = map JsString (map fst segments)).
  { clear Hv. induction Hm as [ | m s ms ss [Hc _] _ IH ]; [ reflexivity | ].
    simpl. now rewrite Hc, IH. }
  assert (Hvs : map (fun m => value (generateType m ep)) members
                = map JsString (map snd segments)).
  { clear Hv Hcs. induction Hm as [ | m s ms ss [_ Hval] _ IH ];
      [ reflexivity | ].
    simpl. now rewrite Hval, IH. }
  apply (generateType_union type ep members _ _ Hn Hv).
  - rewrite Hcs. apply Array_join_strings.
  - rewrite Hvs. apply Array_join_strings.
Qed.

End Members.

Section Strings.

Context {RT : Runtime} {PT : PropTypesType} {IV : Inspector}.

Variable self : JsValue -> TypeDef.

(** Opens the equations [c = Normal y] left in the context. *)
Ltac invert_formats :=
  cbv beta in *;
  repeat match goal with
         | E : bind ?c _ = Normal _ |- _ =>
             destruct c eqn:?; cbn [bind] in E; try discriminate E
         | E : (if ?b then _ else _) = Normal _ |- _ => destruct b
         | E : Normal _ = Normal ?y |- _ => is_var y; injection E as <-
         end.

Lemma generateFunc_strings (ep : ExtractedProp) (r : TypeDef) :
  generateFunc ep = Normal r -> has_strings r.
Proof.
  unfold generateFunc, has_strings. intros H. cbv zeta in H.
  invert_normal H; cbn; eauto.
Qed.

Lemma generateShape_strings (type : JsValue) (r : TypeDef) :
  generateShape self type = Normal r -> has_strings r.
Proof.
  unfold generateShape, has_strings. intros H.
  invert_normal H; cbn [caption value createTypeDef isNil negb]; eauto.
Qed.

Lemma generateObjectOf_strings (type : JsValue) (r : TypeDef) :
  generateObjectOf self type = Normal r -> has_strings r.
Proof.
  unfold generateObjectOf, has_strings. intros H. cbv zeta in H.
  invert_normal H; invert_formats;
    cbn [caption value createTypeDef isNil negb]; eauto.
Qed.

Lemma generateArray_strings (type : JsValue) (r : TypeDef) :
  generateArray self type = Normal r -> has_strings r.
Proof.
  unfold generateArray, braceAfter, braceAround, has_strings.
  intros H. cbv zeta in H.
  invert_normal H; invert_formats;
    cbn [caption value createTypeDef isNil negb]; eauto.
Qed.

End Strings.

Section StringResults.

Context {RT : Runtime} {PT : PropTypesType} {IV : Inspector}.

(** X15: whatever the nested data, a Func, Shape, ObjectOf or ArrayOf
    descriptor is formatted with a string as caption and a string as
    value, the fallback included. *)
Theorem composite_results_are_strings (type : JsValue) (ep : ExtractedProp)
    (k : string) :
  get_prop type "name" = Normal (JsString k) ->
  In k [FUNC; SHAPE; OBJECTOF; ARRAYOF] ->
  exists c v, caption (generateType type ep) = JsString c
              /\ value (generateType type ep) = JsString v.
Proof.
  intros Hn Hk. rewrite generateType_unfold.
  assert (Hbody : forall r,
             generateType_body (fun v => generateType v ep) type ep = Normal r ->
             has_strings r).
  { intros r. cbn [In] in Hk.
    destruct Hk as [ <- | [ <- | [ <- | [ <- | [] ] ] ] ].
    - rewrite (body_FUNC _ _ ep Hn). apply generateFunc_strings.
    - rewrite (body_SHAPE _ _ ep Hn). apply generateShape_strings.
    - rewrite (body_OBJECTOF _ _ ep Hn). apply generateObjectOf_strings.
    - rewrite (body_ARRAYOF _ _ ep Hn). apply generateArray_strings. }
  destruct (generateType_body _ type ep) as [ r | e ]; cbn [try_catch].
  - now apply Hbody.
  - cbn. eauto.
Qed.

End StringResults.

(** ** More on the stripping of qualifiers *)

Lemma shortifyPropTypes_shrinks_or_fixed (t : string) :
  shortifyPropTypes_string t = t
  \/ String.length (shortifyPropTypes_string t) < String.length t.
Proof.
  destruct (occurs match_PropTypes t) eqn:H1.
  - right. unfold shortifyPropTypes_string.
    apply replace_all_shrinks in H1.
    pose proof (replace_all_length match_isRequired
                  (replace_all match_PropTypes 0 t) 0).
    lia.
  - destruct (occurs match_isRequired t) eqn:H2.
    + right. unfold shortifyPropTypes_string.
      rewrite (replace_all_fixed _ _ H1).
      now apply replace_all_shrinks.
    + left. now apply shortifyPropTypes_fixed.
Qed.

Lemma iter_fixed (t : string) :
  shortifyPropTypes_string t = t ->
  forall n, Nat.iter n shortifyPropTypes_string t = t.
Proof.
  intros H. induction n as [ | n IH ]; [ reflexivity | ].
  rewrite Nat.iter_succ, IH. exact H.
Qed.

Lemma shortifyPropTypes_iter_fixed (n : nat) :
  forall s, String.length s <= n ->
    shortifyPropTypes_string (Nat.iter n shortifyPropTypes_string s)
    = Nat.iter n shortifyPropTypes_string s.
Proof.
  induction n as [ | n IH ]; intros s Hle.
  - destruct s; [ reflexivity | simpl in Hle; lia ].
  - destruct (shortifyPropTypes_shrinks_or_fixed s) as [ Hfix | Hlt ].
    + now rewrite (iter_fixed s Hfix).
    + rewrite Nat.iter_succ_r. apply IH. lia.
Qed.

(** X13: stripping never lengthens a string, a pass that changes the
    string shortens it, and repeating the stripping as often as the string
    has characters reaches a string that stripping leaves alone. *)
Theorem shortifyPropTypes_settles (s : string) :
  String.length (shortifyPropTypes_string s) <= String.length s
  /\ (shortifyPropTypes_string s = s
      \/ String.length (shortifyPropTypes_string s) < String.length s)
  /\ shortifyPropTypes_string
       (Nat.iter (String.length s) shortifyPropTypes_string s)
     = Nat.iter (String.length s) shortifyPropTypes_string s.
Proof.
  split; [ | split ].
  - destruct (shortifyPropTypes_shrinks_or_fixed s) as [ -> | H ]; lia.
  - apply shortifyPropTypes_shrinks_or_fixed.
  - apply shortifyPropTypes_iter_fixed. lia.
Qed.

(** X14: the dot of [/PropTypes./] is not escaped: [PropTypes] is removed
    together with whatever character follows it, a dot or not, unless that
    character is a line terminator. *)
Theorem shortifyPropTypes_any_character (c : ascii) (s : string) :
  line_terminator c = false ->
  shortifyPropTypes_string ("PropTypes" ++ String c s)
  = shortifyPropTypes_string s.
Proof.
  intros Hc. unfold shortifyPropTypes_string. f_equal.
  cbn. rewrite Hc. reflexivity.
Qed.

Lemma shortifyPropTypes_any_character_witness :
  shortifyPropTypes_string ("PropTypes" ++ String "_" "string")
  = shortifyPropTypes_string "string".
Proof.
  apply (shortifyPropTypes_any_character "_" "string"). reflexivity.
Defined.

(** ** Further runs on concrete descriptors *)

Module MoreRuns.

Import Example.

Lemma unknown_is_no_kind : ~ In "unknown" (@kinds docgen_kinds).
Proof. simpl. intuition discriminate. Defined.

Lemma generateType_reads_only_tags_witness :
  generateType shape_a_b (undocumented JsNull)
  = generateType shape_a_b (undocumented shape_a_b).
Proof.
  exact (generateType_reads_only_tags
           shape_a_b (undocumented JsNull) (undocumented shape_a_b) eq_refl).
Defined.

Lemma renderType_raises_on_nil_witness :
  (exists e, renderType (undocumented JsUndefined) = Throw e)
  /\ (exists node, renderType (undocumented (scalar "string")) = Normal node).
Proof.
  split.
  - apply (proj1 (renderType_raises_on_nil (undocumented JsUndefined))).
    reflexivity.
  - apply (proj2 (renderType_raises_on_nil (undocumented (scalar "string")))).
    reflexivity.
Defined.

Lemma generateUnion_Enum_not_a_sequence_witness :
  generateType (descriptor "union" (JsString "A | B") JsUndefined)
               (undocumented JsUndefined)
  = mkTypeDef (JsString "union") (JsString "A | B") (JsString "A | B") None.
Proof.
  apply (proj1 (generateUnion_Enum_not_a_sequence
                  (descriptor "union" (JsString "A | B") JsUndefined)
                  (undocumented JsUndefined) (JsString "A | B")
                  eq_refl ltac:(discriminate))).
  reflexivity.
Defined.

Lemma nested_fault_is_contained_witness :
  generateType (scalar "objectOf") (undocumented JsUndefined)
  = mkTypeDef (JsString "objectOf") (JsString "objectOf(unknown)")
              (JsString "objectOf(unknown)") None.
Proof.
  apply (proj1 (nested_fault_is_contained
                  (scalar "objectOf") (undocumented JsUndefined) JsUndefined
                  unknown_is_no_kind eq_refl eq_refl)).
  reflexivity.
Defined.

Lemma empty_collections_witness :
  generateType (descriptor "shape" (JsObject []) JsUndefined)
               (undocumented JsUndefined)
  = mkTypeDef (JsString "shape") (JsString "{  }") (JsString "{  }") None.
Proof.
  exact (proj1 (@empty_collections runtime docgen_kinds classifier
                  (descriptor "shape" (JsObject []) JsUndefined)
                  (undocumented JsUndefined))
               eq_refl eq_refl).
Defined.

Lemma generateCustom_raw_text_witness :
  inferedType (generateType arrow (undocumented JsUndefined)) = Some KFunction.
Proof.
  exact (proj1 (@generateCustom_raw_text runtime docgen_kinds classifier
                  arrow (undocumented JsUndefined) "() => {}" KFunction
                  eq_refl eq_refl eq_refl)).
Defined.

Lemma generateShape_caption_bounded_witness :
  exists c, caption (generateType shape_a_b (undocumented JsUndefined))
            = JsString c
            /\ String.length c <= MAX_CAPTION_LENGTH.
Proof.
  exact (generateShape_caption_bounded
           shape_a_b (undocumented JsUndefined)
           [("a", scalar "string"); ("b", scalar "number")]
           ["a: string"; "b: number"]
           eq_refl eq_refl Runs.NoDup_a_b eq_refl).
Defined.

Lemma generateArray_custom_object_witness :
  value (generateType
           (descriptor "arrayOf"
              (descriptor "custom" JsUndefined
                          (JsString "{ a: PropTypes.string }"))
              JsUndefined)
           (undocumented JsUndefined))
  = JsString "[{ a: string }]".
Proof.
  exact (proj1 (@generateArray_custom_object runtime docgen_kinds classifier
                  (descriptor "arrayOf"
                     (descriptor "custom" JsUndefined
                                 (JsString "{ a: PropTypes.string }"))
                     JsUndefined)
                  (undocumented JsUndefined)
                  (descriptor "custom" JsUndefined
                              (JsString "{ a: PropTypes.string }"))
                  "{ a: PropTypes.string }"
                  eq_refl eq_refl eq_refl eq_refl eq_refl)).
Defined.

Lemma generateEnum_members_witness :
  generateType
    (descriptor "enum"
       (JsArray [enum_member "'a'"; computed_member "{ a: PropTypes.string }"])
       JsUndefined)
    (undocumented JsUndefined)
  = mkTypeDef (JsString "enum") (JsString "'a' | object")
              (JsString "'a' | { a: string }") None.
Proof.
  apply (@generateEnum_members runtime docgen_kinds classifier
           _ _ [enum_member "'a'"; computed_member "{ a: PropTypes.string }"]
           [("'a'", "'a'"); ("object", "{ a: string }")]);
    try reflexivity.
  repeat constructor.
  - exists "'a'", (JsBool false). repeat split. left. repeat split.
  - exists "{ a: PropTypes.string }", (JsBool true). repeat split.
    right. split; [ reflexivity | ]. exists KObject. repeat split.
Defined.

Lemma generateEnum_member_fault_witness :
  generateType
    (descriptor "enum" (JsArray [enum_member "'a'"; computed_member "@"])
                JsUndefined)
    (undocumented JsUndefined)
  = unknown.
Proof.
  apply (@generateEnum_member_fault runtime docgen_kinds classifier
           _ _ [enum_member "'a'"; computed_member "@"]
           (computed_member "@") (JsString "@") (JsBool true)
           (Thrown "SyntaxError"));
    try reflexivity.
  right. left. reflexivity.
Defined.

Lemma generateUnion_of_strings_witness :
  generateType
    (descriptor "union" (JsArray [scalar "string"; scalar "number"])
                JsUndefined)
    (undocumented JsUndefined)
  = mkTypeDef (JsString "union") (JsString "string | number")
              (JsString "string | number") None.
Proof.
  apply (@generateUnion_of_strings runtime docgen_kinds classifier
           _ _ [scalar "string"; scalar "number"]
           [("string", "string"); ("number", "number")]);
    try reflexivity.
  repeat constructor.
Defined.

Lemma composite_results_are_strings_witness :
  exists c v,
    caption (generateType (scalar "objectOf") (undocumented JsUndefined))
    = JsString c
    /\ value (generateType (scalar "objectOf") (undocumented JsUndefined))
       = JsString v.
Proof.
  apply (@composite_results_are_strings runtime docgen_kinds classifier
           (scalar "objectOf") (undocumented JsUndefined) "objectOf").
  - reflexivity.
  - simpl. tauto.
Defined.

End MoreRuns.
